(** * Litmos user management: bulk activation and deactivation

    A shallow embedding of [app.py]: the payload sanitizer
    [sanitize_user_data], the two lifecycle operations [activate_user] and
    [deactivate_user], and the row loop of [process_csv].

    Python values are modelled by [pyvalue] (what [json] and [pandas] hand
    to the code), dictionaries by [gmap string pyvalue] (Python compares
    dictionaries without regard to key order), exceptions by the text of
    [str(e)].  The remote directory is an arbitrary deterministic server:
    every HTTP call of the code is answered by [serve], and the calls are
    recorded, in order, in a trace. *)

From Stdlib Require Import ZArith Ascii String List.
From Stdlib Require Import Floats.SpecFloat.
From stdpp Require Import base gmap strings list fin_maps.

Set Warnings "-register-all,-clear-no-such-hyp".
Local Open Scope Z_scope.
Local Open Scope string_scope.

(** ** Python values *)

Inductive pyvalue : Type :=
| PyNone
| PyBool (b : bool)
| PyInt (z : Z)
| PyFloat (f : spec_float)
| PyStr (s : string)
| PyList (l : list pyvalue)
| PyDict (d : gmap string pyvalue).

(** An exception is represented by its [str(e)]. *)
Definition exn : Type := string.

(** The result of evaluating a Python expression: it raises or yields. *)
Definition exc (A : Type) : Type := exn + A.

Definition exc_bind {A B : Type} (x : exc A) (k : A -> exc B) : exc B :=
  match x with
  | inl e => inl e
  | inr a => k a
  end.

Declare Scope exc_scope.
Delimit Scope exc_scope with exc.
Notation "'let!' x ':=' c 'in' k" := (exc_bind c (fun x => k))
  (at level 10, x name, c at level 100, k at level 200) : exc_scope.

Definition empty_str : string := EmptyString.

Definition type_name (v : pyvalue) : string :=
  match v with
  | PyNone => "NoneType"
  | PyBool _ => "bool"
  | PyInt _ => "int"
  | PyFloat _ => "float"
  | PyStr _ => "str"
  | PyList _ => "list"
  | PyDict _ => "dict"
  end.

(** The texts of the exceptions the modelled expressions can raise
    (CPython 3.11 wording). *)
Definition AttributeError (v : pyvalue) (attr : string) : exn :=
  "'" +:+ type_name v +:+ "' object has no attribute '" +:+ attr +:+ "'".

Definition TypeError_not_iterable (v : pyvalue) : exn :=
  "'" +:+ type_name v +:+ "' object is not iterable".

Definition TypeError_not_container (v : pyvalue) : exn :=
  "argument of type '" +:+ type_name v +:+ "' is not iterable".

Definition TypeError_index (v : pyvalue) : exn :=
  match v with
  | PyList _ => "list indices must be integers or slices, not str"
  | PyStr _ => "string indices must be integers, not 'str'"
  | _ => "'" +:+ type_name v +:+ "' object is not subscriptable"
  end.

Definition KeyError (k : string) : exn := "'" +:+ k +:+ "'".

(** [bool(v)]. *)
Definition truthy (v : pyvalue) : bool :=
  match v with
  | PyNone => false
  | PyBool b => b
  | PyInt z => negb (Z.eqb z 0)
  | PyFloat (S754_zero _) => false
  | PyFloat _ => true
  | PyStr s => negb (Nat.eqb (String.length s) 0)
  | PyList l => negb (Nat.eqb (List.length l) 0)
  | PyDict d => negb (Nat.eqb (size d) 0)
  end.

(** [v.get(key, default)]: only dictionaries have the method. *)
Definition py_get (v : pyvalue) (key : string) (default : pyvalue) : exc pyvalue :=
  match v with
  | PyDict d => inr (match d !! key with Some x => x | None => default end)
  | _ => inl (AttributeError v "get")
  end.

(** [v.lower()]: only strings have the method.  The case folding itself
    is a parameter of the model. *)
Definition py_lower (lower : string -> string) (v : pyvalue) : exc string :=
  match v with
  | PyStr s => inr (lower s)
  | _ => inl (AttributeError v "lower")
  end.

Fixpoint chars (s : string) : list pyvalue :=
  match s with
  | EmptyString => []
  | String c s' => PyStr (String c EmptyString) :: chars s'
  end.

(** The items [for x in v] runs through.  A dictionary yields its keys;
    their order plays no role below, since every key is a [str] and both
    loops of the program raise the same [AttributeError] on a [str]. *)
Definition py_iter (v : pyvalue) : exc (list pyvalue) :=
  match v with
  | PyList l => inr l
  | PyDict d => inr (PyStr <$> (map_to_list d).*1)
  | PyStr s => inr (chars s)
  | _ => inl (TypeError_not_iterable v)
  end.

Definition is_str (k : string) (x : pyvalue) : bool :=
  match x with
  | PyStr s => String.eqb s k
  | _ => false
  end.

(** [k in v] for a string [k]. *)
Definition py_contains (v : pyvalue) (k : string) : exc bool :=
  match v with
  | PyDict d => inr (match d !! k with Some _ => true | None => false end)
  | PyList l => inr (existsb (is_str k) l)
  | PyStr s => inr (match String.index 0 k s with Some _ => true | None => false end)
  | _ => inl (TypeError_not_container v)
  end.

(** [v[k]] for a string [k]. *)
Definition py_getitem (v : pyvalue) (k : string) : exc pyvalue :=
  match v with
  | PyDict d => match d !! k with Some x => inr x | None => inl (KeyError k) end
  | _ => inl (TypeError_index v)
  end.

(** ** The payload sanitizer *)

Definition allowed : list string :=
  ["Id"; "FirstName"; "LastName"; "Email"; "Active"; "UserName"].

(** [{k: user_data[k] for k in keys if k in user_data}], filling [clean]
    key by key. *)
Fixpoint comprehension (user_data : pyvalue) (keys : list string)
    (clean : gmap string pyvalue) : exc (gmap string pyvalue) :=
  match keys with
  | [] => inr clean
  | k :: keys' =>
      (let! present := py_contains user_data k in
       if present
       then let! x := py_getitem user_data k in
            comprehension user_data keys' (<[k := x]> clean)
       else comprehension user_data keys' clean)%exc
  end.

Definition sanitize_user_data (user_data : pyvalue) (active_status : bool)
    : exc (gmap string pyvalue) :=
  (let! clean := comprehension user_data allowed ∅ in
   inr (<["Active" := PyBool active_status]> clean))%exc.

(** The three assignments [deactivate_user] makes to the sanitized payload
    before it sends it. *)
Definition location_fields : list string := ["Region"; "Area"; "Country"].

Definition clear_location (update_data : gmap string pyvalue) : gmap string pyvalue :=
  <["Country" := PyStr empty_str]>
    (<["Area" := PyStr empty_str]>
       (<["Region" := PyStr empty_str]> update_data)).

(** ** The remote directory and the effects of the program *)

(** The four URL shapes the program formats; the value spliced into each
    f-string is kept as it is. *)
Inductive url : Type :=
| users_search (search : pyvalue)
| users_id (user_id : pyvalue)
| users_id_teams (user_id : pyvalue)
| teams_id_users_id (team_id user_id : pyvalue).

(** The calls made through [requests]; [PUT] carries the dictionary that
    [json.dumps] serialises. *)
Inductive request : Type :=
| GET (u : url)
| PUT (u : url) (data : gmap string pyvalue)
| DELETE (u : url).

Record response : Type := Response {
  status_code : Z;
  text : string;
  json : exc pyvalue
}.

(** A call either raises (connection error, timeout, ...) or returns. *)
Inductive outcome : Type :=
| Raises (e : exn)
| Responds (r : response).

Inductive log_entry : Type :=
| Debug_activation_payload (update_data : gmap string pyvalue)
| Debug_deactivation_payload (update_data : gmap string pyvalue)
| Warning_remove_failed (username team_id : pyvalue) (body : string)
| Warning_teams_failed (username : pyvalue) (body : string)
| Error_activating (username : pyvalue) (e : exn)
| Error_deactivating (username : pyvalue) (e : exn).

Inductive event : Type :=
| Http (rq : request) (o : outcome)
| Logged (l : log_entry).

(** What the program runs against: a directory with a state of its own
    that answers every request, and the case folding of [str.lower]. *)
Class Env : Type := {
  directory : Type;
  serve : directory -> request -> outcome * directory;
  lower : string -> string
}.

Record OperationResult : Type := Result {
  r_username : pyvalue;
  r_success : bool;
  r_message : string
}.

Inductive reply : Type :=
| jsonify_error (error : string) (status : Z)
| jsonify_success (results : list OperationResult).

Record session : Type := Session {
  session_results : option (list OperationResult);
  session_operation_type : option string
}.

Declare Scope io_scope.
Delimit Scope io_scope with io.
Declare Scope py_scope.
Delimit Scope py_scope with py.

Section Program.
Context `{Env}.

(** A computation that always returns: its value, the events it caused
    and the directory it leaves. *)
Definition T (A : Type) : Type := directory -> A * list event * directory.

Definition tret {A : Type} (a : A) : T A := fun d => (a, [], d).

Definition tbind {A B : Type} (m : T A) (k : A -> T B) : T B :=
  fun d =>
    let '(a, t1, d1) := m d in
    let '(b, t2, d2) := k a d1 in
    (b, (t1 ++ t2)%list, d2).

(** A computation that may raise. *)
Definition M (A : Type) : Type := T (exc A).

Definition mret {A : Type} (a : A) : M A := tret (inr a).

Definition mbind {A B : Type} (m : M A) (k : A -> M B) : M B :=
  tbind m (fun r => match r with
                    | inl e => tret (inl e)
                    | inr a => k a
                    end).

Definition lift {A : Type} (x : exc A) : M A := tret x.

Definition requests (rq : request) : M response :=
  fun d =>
    let '(o, d') := serve d rq in
    (match o with Raises e => inl e | Responds r => inr r end, [Http rq o], d').

Definition logger (l : log_entry) : M unit := fun d => (inr tt, [Logged l], d).

(** [try: body  except Exception as e: handler]. *)
Definition try_except {A : Type} (body : M A) (handler : exn -> T A) : T A :=
  tbind body (fun r => match r with
                       | inl e => handler e
                       | inr a => tret a
                       end).

Notation "'let*' x ':=' c 'in' k" := (tbind c (fun x => k))
  (at level 10, x name, c at level 100, k at level 200) : io_scope.
Notation "'let!' x ':=' c 'in' k" := (mbind c (fun x => k))
  (at level 10, x name, c at level 100, k at level 200) : py_scope.

Definition value {A : Type} (run : A * list event * directory) : A := run.1.1.
Definition trace {A : Type} (run : A * list event * directory) : list event := run.1.2.
Definition final {A : Type} (run : A * list event * directory) : directory := run.2.

(** A run that comes after the events [t]. *)
Definition after {A : Type} (t : list event) (run : A * list event * directory)
    : A * list event * directory :=
  (value run, (t ++ trace run)%list, final run).

(** [next((u for u in users if
          u.get("UserName", "").lower() == username.lower()), None)]. *)
Fixpoint next_match (items : list pyvalue) (username : pyvalue) : exc pyvalue :=
  match items with
  | [] => inr PyNone
  | u :: rest =>
      (let! name := py_get u "UserName" (PyStr empty_str) in
       let! l := py_lower lower name in
       let! r := py_lower lower username in
       if String.eqb l r then inr u else next_match rest username)%exc
  end.

Definition find_user (users username : pyvalue) : exc pyvalue :=
  (let! items := py_iter users in next_match items username)%exc.

Definition status_in (code : Z) (codes : list Z) : bool :=
  existsb (Z.eqb code) codes.

Definition activate_user (username : pyvalue) : T OperationResult :=
  try_except
    (let user_url := users_search username in
     let! response := requests (GET user_url) in
     if negb (Z.eqb (status_code response) 200) then
       mret (Result username false ("Failed to find user: " +:+ text response))
     else
     let! users := lift (json response) in
     let! user := lift (find_user users username) in
     if negb (truthy user) then
       mret (Result username false "User not found")
     else
     let! user_id := lift (py_get user "Id" PyNone) in
     let! active := lift (py_get user "Active" (PyBool false)) in
     if truthy active then
       mret (Result username false
               "Error: User is already active. Duplicate activation attempt.")
     else
     let details_url := users_id user_id in
     let! get_response := requests (GET details_url) in
     if negb (Z.eqb (status_code get_response) 200) then
       mret (Result username false
               ("Failed to get user details: " +:+ text get_response))
     else
     let! user_data := lift (json get_response) in
     let! update_data := lift (sanitize_user_data user_data true) in
     let! _ := logger (Debug_activation_payload update_data) in
     let! update_response := requests (PUT details_url update_data) in
     if status_in (status_code update_response) [200; 201; 204] then
       mret (Result username true "User activated successfully")
     else
       mret (Result username false
               ("Failed to activate user: " +:+ text update_response)))%py
    (fun e =>
       (let* _ := logger (Error_activating username e) in
        tret (Result username false ("Error: " +:+ e)))%io).

(** The body of [for team in teams]. *)
Fixpoint remove_from_teams (username user_id : pyvalue) (teams : list pyvalue)
    : M unit :=
  match teams with
  | [] => mret tt
  | team :: rest =>
      (let! team_id := lift (py_get team "Id" PyNone) in
       let remove_url := teams_id_users_id team_id user_id in
       let! remove_response := requests (DELETE remove_url) in
       let! _ := (if negb (status_in (status_code remove_response) [200; 204])
                  then logger (Warning_remove_failed username team_id
                                 (text remove_response))
                  else mret tt) in
       remove_from_teams username user_id rest)%py
  end.

Definition deactivate_user (username : pyvalue) : T OperationResult :=
  try_except
    (let user_url := users_search username in
     let! response := requests (GET user_url) in
     if negb (Z.eqb (status_code response) 200) then
       mret (Result username false ("Failed to find user: " +:+ text response))
     else
     let! users := lift (json response) in
     let! user := lift (find_user users username) in
     if negb (truthy user) then
       mret (Result username false "User not found")
     else
     let! user_id := lift (py_get user "Id" PyNone) in
     let! active := lift (py_get user "Active" (PyBool true)) in
     if negb (truthy active) then
       mret (Result username false
               "Error: User is already inactive. Duplicate deactivation attempt.")
     else
     let details_url := users_id user_id in
     let! get_response := requests (GET details_url) in
     if negb (Z.eqb (status_code get_response) 200) then
       mret (Result username false
               ("Failed to get user details: " +:+ text get_response))
     else
     let! user_data := lift (json get_response) in
     let! update_data := lift (sanitize_user_data user_data false) in
     let update_data := clear_location update_data in
     let! _ := logger (Debug_deactivation_payload update_data) in
     let! update_response := requests (PUT details_url update_data) in
     if negb (status_in (status_code update_response) [200; 201; 204]) then
       mret (Result username false
               ("Failed to deactivate user: " +:+ text update_response))
     else
     let teams_url := users_id_teams user_id in
     let! teams_response := requests (GET teams_url) in
     let! _ := (if Z.eqb (status_code teams_response) 200 then
                  let! teams := lift (json teams_response) in
                  let! items := lift (py_iter teams) in
                  remove_from_teams username user_id items
                else
                  logger (Warning_teams_failed username (text teams_response))) in
     mret (Result username true
             "User deactivated, removed from all teams, and profile data cleared"))%py
    (fun e =>
       (let* _ := logger (Error_deactivating username e) in
        tret (Result username false ("Error: " +:+ e)))%io).

(** [operation_type == name], where a missing form field is [None]. *)
Definition op_is (operation_type : option string) (name : string) : bool :=
  match operation_type with
  | Some o => String.eqb o name
  | None => false
  end.

(** The loop of [process_csv] over the rows; [inl] is its early
    [return]. *)
Fixpoint for_usernames (operation_type : option string)
    (usernames : list pyvalue) (results : list OperationResult)
    : T (reply + list OperationResult) :=
  match usernames with
  | [] => tret (inr results)
  | username :: rest =>
      if op_is operation_type "activation" then
        (let* result := activate_user username in
         for_usernames operation_type rest (results ++ [result])%list)%io
      else if op_is operation_type "deactivation" then
        (let* result := deactivate_user username in
         for_usernames operation_type rest (results ++ [result])%list)%io
      else
        tret (inl (jsonify_error "Invalid operation type" 400))
  end.

(** [process_csv] from [usernames = df['username'].tolist()] on. *)
Definition process_csv (operation_type : option string)
    (usernames : list pyvalue) (s : session) : T (reply * session) :=
  (let* r := for_usernames operation_type usernames [] in
   match r with
   | inl early => tret (early, s)
   | inr results =>
       tret (jsonify_success results,
             Session (Some results)
               (Some (if op_is operation_type "activation"
                      then "Activation" else "Deactivation")))
   end)%io.

End Program.

(** ** Reading a trace *)

(** The requests of a trace, in the order they were issued. *)
Fixpoint calls (t : list event) : list request :=
  match t with
  | [] => []
  | Http rq _ :: t' => rq :: calls t'
  | Logged _ :: t' => calls t'
  end.

(** The bodies of the update requests of a trace. *)
Fixpoint put_bodies (t : list event) : list (gmap string pyvalue) :=
  match t with
  | [] => []
  | Http (PUT _ data) _ :: t' => data :: put_bodies t'
  | _ :: t' => put_bodies t'
  end.

Definition is_put (rq : request) : bool :=
  match rq with
  | PUT _ _ => true
  | _ => false
  end.

(** The team listing and the team removals. *)
Definition is_team_call (rq : request) : bool :=
  match rq with
  | GET (users_id_teams _) => true
  | DELETE (teams_id_users_id _ _) => true
  | _ => false
  end.

Definition search_or_details (rq : request) : bool :=
  match rq with
  | GET (users_search _) => true
  | GET (users_id _) => true
  | _ => false
  end.

(** An update answered with a status outside 200, 201 and 204. *)
Definition rejected_update (ev : event) : bool :=
  match ev with
  | Http (PUT _ _) (Responds r) => negb (status_in (status_code r) [200; 201; 204])
  | _ => false
  end.

(** An update answered with 200, 201 or 204. *)
Definition accepted_update (ev : event) : bool :=
  match ev with
  | Http (PUT _ _) (Responds r) => status_in (status_code r) [200; 201; 204]
  | _ => false
  end.

(** A call that raised instead of returning a response. *)
Definition raised_call (ev : event) : bool :=
  match ev with
  | Http _ (Raises _) => true
  | _ => false
  end.

Definition is_dict (v : pyvalue) : bool :=
  match v with
  | PyDict _ => true
  | _ => false
  end.

(** Anything but a team listing answered with 200 over which the loop
    [for team in teams] cannot run to its end: one whose body is not
    JSON, or cannot be iterated, or has an item that is not an object.
    The items are the elements of an array, the keys of an object, the
    characters of a string; an empty array, object or string has none. *)
Definition listing_of_objects (ev : event) : bool :=
  match ev with
  | Http (GET (users_id_teams _)) (Responds r) =>
      if Z.eqb (status_code r) 200
      then match json r with
           | inr teams =>
               match py_iter teams with
               | inr items => forallb is_dict items
               | inl _ => false
               end
           | inl _ => false
           end
      else true
  | _ => true
  end.

(** What the team removal loop leaves in a trace. *)
Definition removal_event (ev : event) : bool :=
  match ev with
  | Http (DELETE (teams_id_users_id _ _)) _ => true
  | Logged (Warning_remove_failed _ _ _) => true
  | _ => false
  end.

Definition put_rejected (t : list event) : bool := existsb rejected_update t.
Definition put_accepted (t : list event) : bool := existsb accepted_update t.
Definition call_raised (t : list event) : bool := existsb raised_call t.
Definition listings_of_objects (t : list event) : bool :=
  forallb listing_of_objects t.

(** The operation a recognized [operation_type] selects for every row. *)
Definition recognized (operation_type : option string) : bool :=
  op_is operation_type "activation" || op_is operation_type "deactivation".

Definition lifecycle `{Env} (operation_type : option string)
    : pyvalue -> T OperationResult :=
  if op_is operation_type "activation" then activate_user else deactivate_user.

(** The rows one after the other, each on the directory the previous row
    left behind, whatever the previous results were. *)
Fixpoint each_in_turn `{Env} (operation : pyvalue -> T OperationResult)
    (usernames : list pyvalue) : T (list OperationResult) :=
  match usernames with
  | [] => tret []
  | username :: rest =>
      tbind (operation username) (fun result =>
      tbind (each_in_turn operation rest) (fun results =>
      tret (result :: results)))
  end.

(** ** A scripted directory

    A small directory with one account, Bob (id 7), used to run the
    program on concrete inputs.  Its state is Bob's [Active] flag; the
    scenario fixes whether the search lists the flag, and how the update,
    the team listing and the team removals answer. *)

Definition lower_ascii (c : ascii) : ascii :=
  let n := nat_of_ascii c in
  if (Nat.leb 65 n && Nat.leb n 90)%bool then ascii_of_nat (n + 32) else c.

Fixpoint str_lower (s : string) : string :=
  match s with
  | EmptyString => EmptyString
  | String c s' => String (lower_ascii c) (str_lower s')
  end.

Record scenario : Type := Scenario {
  search_lists_active : bool;
  put_status : Z;
  teams_outcome : outcome;
  delete_outcome : outcome
}.

Definition bob_record (active : bool) : gmap string pyvalue :=
  list_to_map
    [("Id", PyInt 7); ("UserName", PyStr "Bob"); ("FirstName", PyStr "Bob");
     ("LastName", PyStr "Builder"); ("Email", PyStr "bob@example.org");
     ("Active", PyBool active); ("Region", PyStr "EMEA");
     ("Area", PyStr "North"); ("Country", PyStr "FR");
     ("AccessLevel", PyStr "Learner")].

Definition no_json : exc pyvalue := inl "Expecting value: line 1 column 1 (char 0)".

Definition ok_json (v : pyvalue) : outcome :=
  Responds (Response 200 "OK" (inr v)).

Definition bob_teams : pyvalue :=
  PyList [PyDict {["Id" := PyStr "t1"]}; PyDict {["Id" := PyStr "t2"]}].

Definition scripted_serve (sc : scenario) (active : bool) (rq : request)
    : outcome * bool :=
  match rq with
  | GET (users_search (PyStr s)) =>
      if String.eqb (str_lower s) "bob"
      then (ok_json (PyList [PyDict (if search_lists_active sc
                                     then bob_record active
                                     else delete "Active" (bob_record active))]),
            active)
      else (ok_json (PyList []), active)
  | GET (users_id (PyInt 7)) => (ok_json (PyDict (bob_record active)), active)
  | PUT (users_id (PyInt 7)) data =>
      if status_in (put_status sc) [200; 201; 204]
      then (Responds (Response (put_status sc) "updated" no_json),
            match data !! "Active" with Some x => truthy x | None => active end)
      else (Responds (Response (put_status sc) "rejected" no_json), active)
  | GET (users_id_teams (PyInt 7)) => (teams_outcome sc, active)
  | DELETE (teams_id_users_id _ (PyInt 7)) => (delete_outcome sc, active)
  | _ => (Responds (Response 404 "Not Found" no_json), active)
  end.

Definition scripted (sc : scenario) : Env :=
  {| directory := bool; serve := scripted_serve sc; lower := str_lower |}.

(** Every call answers with a success status. *)
Definition all_good : scenario :=
  Scenario true 200 (ok_json bob_teams) (Responds (Response 204 "removed" no_json)).

(** The update is rejected. *)
Definition update_rejected : scenario :=
  Scenario true 500 (ok_json bob_teams) (Responds (Response 204 "removed" no_json)).

(** The update goes through, every team removal answers 500. *)
Definition removals_rejected : scenario :=
  Scenario true 200 (ok_json bob_teams) (Responds (Response 500 "team locked" no_json)).

(** The update goes through, the team listing answers 503. *)
Definition listing_rejected : scenario :=
  Scenario true 204 (Responds (Response 503 "unavailable" no_json))
    (Responds (Response 204 "removed" no_json)).


(** The update goes through, the team listing answers 200 with an empty
    object. *)
Definition empty_object_listing : scenario :=
  Scenario true 200 (ok_json (PyDict ∅)) (Responds (Response 204 "removed" no_json)).

(** The update goes through, the team listing answers 200 with an array
    of numbers. *)
Definition listing_of_numbers : scenario :=
  Scenario true 200 (ok_json (PyList [PyInt 5]))
    (Responds (Response 204 "removed" no_json)).

(** The search returns partial records that do not list the Active
    flag. *)
Definition partial_search : scenario :=
  Scenario false 200 (ok_json bob_teams) (Responds (Response 204 "removed" no_json)).

(** ** The upload handler and the results page *)

(** What [process_csv] relies on to turn the upload into a table: the
    UTF-8 decoding of the bytes read and [pd.read_csv], each of which may
    raise.  A data frame is the map from its column labels to its
    columns ([read_csv] makes the labels of a header unique). *)
Class Tabular : Type := {
  decode_utf8 : list Byte.byte -> exc string;
  read_csv : string -> exc (gmap string (list pyvalue))
}.

(** An entry of [request.files]: its file name, if any, and its bytes. *)
Record upload : Type := Upload {
  filename : option string;
  stream : list Byte.byte
}.

(** The posted form: [request.form.get("operation_type")] and
    [request.files] at ['csv_file']. *)
Record form : Type := Form {
  form_operation_type : option string;
  files_csv_file : option upload
}.

(** [s.endswith(suffix)]. *)
Definition endswith (s suffix : string) : bool :=
  let n := String.length s in
  let m := String.length suffix in
  (Nat.leb m n && String.eqb (substring (n - m) m s) suffix)%bool.

(** The events of the handler: those of the rows, and the error it logs
    itself when the upload cannot be read. *)
Inductive route_event : Type :=
| Row (ev : event)
| Logged_csv_error (e : exn).

(** The events of the rows among those of the handler. *)
Fixpoint row_events (t : list route_event) : list event :=
  match t with
  | [] => []
  | Row ev :: t' => ev :: row_events t'
  | Logged_csv_error _ :: t' => row_events t'
  end.

(** The whole of [process_csv]: the checks on the upload, the parsing
    inside [try: ... except Exception], then the rows. *)
Definition process_csv_route `{Env} `{Tabular} (request : form) (s : session)
    (d : directory) : (reply * session) * list route_event * directory :=
  let operation_type := form_operation_type request in
  match files_csv_file request with
  | None => ((jsonify_error "No file part" 400, s), [], d)
  | Some file =>
      if match filename file with
         | Some name => String.eqb name empty_str
         | None => false
         end
      then ((jsonify_error "No selected file" 400, s), [], d)
      else if match filename file with
              | Some name =>
                  (negb (String.eqb name empty_str)
                   && negb (endswith (lower name) ".csv"))%bool
              | None => false
              end
      then ((jsonify_error "File must be CSV format" 400, s), [], d)
      else
        match (let! csv_content := decode_utf8 (stream file) in
               read_csv csv_content)%exc with
        | inl e => ((jsonify_error e 500, s), [Logged_csv_error e], d)
        | inr df =>
            match df !! "username" with
            | None =>
                ((jsonify_error "CSV must contain a 'username' column" 400, s),
                 [], d)
            | Some usernames =>
                let '(out, t, d') := process_csv operation_type usernames s d in
                (out, Row <$> t, d')
            end
        end
  end.

(** The arguments [results_page] hands to its template. *)
Definition results_page (s : session) : list OperationResult * string :=
  (default [] (session_results s), default "Unknown" (session_operation_type s)).

(** ** More readings of a trace *)

(** The entry the exception handler of either operation logs. *)
Definition error_logged (ev : event) : bool :=
  match ev with
  | Logged (Error_activating _ _) => true
  | Logged (Error_deactivating _ _) => true
  | _ => false
  end.

(** [isinstance(v, str)]. *)
Definition is_str_value (v : pyvalue) : bool :=
  match v with
  | PyStr _ => true
  | _ => false
  end.

(** A candidate of the search whose [UserName], if it has one, is a
    string. *)
Definition named_record (u : pyvalue) : bool :=
  match u with
  | PyDict m =>
      match m !! "UserName" with
      | Some x => is_str_value x
      | None => true
      end
  | _ => false
  end.

(** What [u.get("UserName", "")] yields on such a candidate. *)
Definition candidate_name (u : pyvalue) : option string :=
  match u with
  | PyDict m =>
      match m !! "UserName" with
      | Some (PyStr x) => Some x
      | Some _ => None
      | None => Some empty_str
      end
  | _ => None
  end.

(** The removal the loop issues for one team of the listing. *)
Definition removal_of (user_id team : pyvalue) : request :=
  DELETE (teams_id_users_id
            (match team with
             | PyDict m => default PyNone (m !! "Id")
             | _ => PyNone
             end) user_id).

(** A detail fetch answered with 200 whose body sanitizes, with the given
    flag and further treatment, to [body]. *)
Definition fetched_payload (active_status : bool)
    (finish : gmap string pyvalue -> gmap string pyvalue)
    (body : gmap string pyvalue) (ev : event) : Prop :=
  exists user_id r user_data clean,
    ev = Http (GET (users_id user_id)) (Responds r) /\
    status_code r = 200 /\
    json r = inr user_data /\
    sanitize_user_data user_data active_status = inr clean /\
    body = finish clean.

(** The payloads logged at debug level, in order. *)
Fixpoint logged_payloads (t : list event) : list (gmap string pyvalue) :=
  match t with
  | [] => []
  | Logged (Debug_activation_payload data) :: t' => data :: logged_payloads t'
  | Logged (Debug_deactivation_payload data) :: t' => data :: logged_payloads t'
  | _ :: t' => logged_payloads t'
  end.

(** The teams whose removal was answered with a status other than 200
    and 204, with the body of the answer. *)
Fixpoint rejected_removals (t : list event) : list (pyvalue * string) :=
  match t with
  | [] => []
  | Http (DELETE (teams_id_users_id team_id _)) (Responds r) :: t' =>
      if negb (status_in (status_code r) [200; 204])
      then (team_id, text r) :: rejected_removals t'
      else rejected_removals t'
  | _ :: t' => rejected_removals t'
  end.

(** The teams named in the warnings about a failed removal, with the
    body reported. *)
Fixpoint warned_removals (t : list event) : list (pyvalue * string) :=
  match t with
  | [] => []
  | Logged (Warning_remove_failed _ team_id body) :: t' =>
      (team_id, body) :: warned_removals t'
  | _ :: t' => warned_removals t'
  end.

(** ** More scripted material *)

(** A directory whose search answers every term with Bob's record, and
    which knows nothing else. *)
Definition loose_search : Env :=
  {| directory := unit;
     serve := fun d rq =>
       match rq with
       | GET (users_search _) => (ok_json (PyList [PyDict (bob_record true)]), d)
       | _ => (Responds (Response 404 "Not Found" no_json), d)
       end;
     lower := str_lower |}.

(** A directory that is down: every call raises. *)
Definition unreachable : Env :=
  {| directory := unit;
     serve := fun d rq => (Raises "Connection refused", d);
     lower := str_lower |}.

Fixpoint string_of_bytes (bs : list Byte.byte) : string :=
  match bs with
  | [] => EmptyString
  | b :: bs' => String (ascii_of_byte b) (string_of_bytes bs')
  end.

(** The lines of a text, without their line feeds. *)
Fixpoint lines (current : string) (s : string) : list string :=
  match s with
  | EmptyString => [current]
  | String c s' =>
      if Ascii.eqb c "010"%char
      then current :: lines EmptyString s'
      else lines (current +:+ String c EmptyString) s'
  end.

(** A reader for one-column tables: the first line is the label, every
    further non-empty line an entry.  An empty text has no columns to
    parse. *)
Definition one_column : Tabular :=
  {| decode_utf8 := fun bs => inr (string_of_bytes bs);
     read_csv := fun text =>
       match lines EmptyString text with
       | header :: entries =>
           if String.eqb header empty_str
           then inl "No columns to parse from file"
           else inr {[ header :=
                         PyStr <$> filter (fun l => l <> empty_str) entries ]}
       | [] => inl "No columns to parse from file"
       end |}.

Fixpoint bytes_of_string (s : string) : list Byte.byte :=
  match s with
  | EmptyString => []
  | String c s' => byte_of_ascii c :: bytes_of_string s'
  end.

Definition line_feed : string := String "010"%char EmptyString.

(** An upload of two rows, alice and bob, under a file name in capitals. *)
Definition sample_upload : upload :=
  Upload (Some "USERS.CSV")
    (bytes_of_string
       ("username" +:+ line_feed +:+ "alice" +:+ line_feed +:+ "bob" +:+ line_feed)).

(** * Properties *)

(** ** The sanitizer *)

Section Sanitizer.
Implicit Types (d clean : gmap string pyvalue) (keys : list string).

(** Whatever the comprehension is run on, it only ever adds keys it was
    asked to look for. *)
Lemma comprehension_dom user_data keys clean c :
  comprehension user_data keys clean = inr c ->
  dom c ⊆ dom clean ∪ list_to_set keys.
Proof.
  revert clean. induction keys as [|k keys IH]; intros clean; simpl.
  - intros [= <-]. set_solver.
  - destruct (py_contains user_data k) as [e|[|]]; simpl; try discriminate.
    + destruct (py_getitem user_data k) as [e|x]; simpl; try discriminate.
      intros Hc. apply IH in Hc. rewrite dom_insert_L in Hc. set_solver.
    + intros Hc. apply IH in Hc. set_solver.
Qed.

(** On a dictionary the comprehension never raises, and copies exactly
    the listed keys that are present. *)
Lemma comprehension_dict d keys clean :
  exists c, comprehension (PyDict d) keys clean = inr c /\
    forall k, c !! k =
      if bool_decide (k ∈ keys)
      then match d !! k with Some x => Some x | None => clean !! k end
      else clean !! k.
Proof.
  revert clean. induction keys as [|k0 keys IH]; intros clean.
  - exists clean. split; [done|]. intros k.
    case_bool_decide as Hk; [by apply elem_of_nil in Hk | done].
  - cbn [comprehension py_contains py_getitem exc_bind].
    destruct (d !! k0) as [x|] eqn:Hk0; cbn [exc_bind].
    + destruct (IH (<[k0 := x]> clean)) as (c & -> & Hc). exists c. split; [done|].
      intros k. rewrite Hc. destruct (decide (k = k0)) as [->|Hne].
      * rewrite Hk0, lookup_insert_eq.
        rewrite (bool_decide_eq_true_2 (k0 ∈ k0 :: keys)); [|by left].
        by case_bool_decide.
      * rewrite lookup_insert_ne; [|done].
        repeat case_bool_decide; try done; set_solver.
    + destruct (IH clean) as (c & -> & Hc). exists c. split; [done|].
      intros k. rewrite Hc. destruct (decide (k = k0)) as [->|Hne].
      * rewrite Hk0. by repeat case_bool_decide.
      * repeat case_bool_decide; try done; set_solver.
Qed.

Lemma sanitize_dom user_data active_status clean :
  sanitize_user_data user_data active_status = inr clean ->
  dom clean ⊆ list_to_set allowed.
Proof.
  unfold sanitize_user_data.
  destruct (comprehension user_data allowed ∅) as [e|c] eqn:Hc; simpl; [done|].
  intros [= <-]. apply comprehension_dom in Hc.
  rewrite dom_insert_L. set_solver.
Qed.

(** The sanitized form of a record, field by field. *)
Lemma sanitize_dict d active_status :
  exists clean, sanitize_user_data (PyDict d) active_status = inr clean /\
    forall k, clean !! k =
      if bool_decide (k = "Active") then Some (PyBool active_status)
      else if bool_decide (k ∈ allowed) then d !! k
      else None.
Proof.
  unfold sanitize_user_data.
  destruct (comprehension_dict d allowed ∅) as (c & -> & Hc); simpl.
  eexists. split; [done|]. intros k.
  case_bool_decide as Hk.
  - subst k. by rewrite lookup_insert_eq.
  - rewrite lookup_insert_ne; [|done]. rewrite Hc, lookup_empty.
    case_bool_decide; [|done]. by destruct (d !! k).
Qed.

Lemma clear_location_lookup clean k :
  clear_location clean !! k =
    if bool_decide (k ∈ location_fields) then Some (PyStr empty_str)
    else clean !! k.
Proof.
  unfold clear_location, location_fields.
  case_bool_decide as Hk.
  - repeat (apply elem_of_cons in Hk as [->|Hk]; [by simplify_map_eq|]).
    by apply elem_of_nil in Hk.
  - rewrite !lookup_insert_ne; [done|set_solver..].
Qed.

Lemma clear_location_dom clean :
  dom (clear_location clean) = dom clean ∪ list_to_set location_fields.
Proof. unfold clear_location. rewrite !dom_insert_L. set_solver. Qed.

Lemma sanitize_active user_data active_status clean :
  sanitize_user_data user_data active_status = inr clean ->
  clean !! "Active" = Some (PyBool active_status).
Proof.
  unfold sanitize_user_data.
  destruct (comprehension user_data allowed ∅) as [e|c]; simpl; [done|].
  intros [= <-]. apply lookup_insert_eq.
Qed.

(** C3, as amended: the sanitizer keeps allow-listed fields only, for
    either flag, so its output holds none of Region, Area and Country; it
    sets Active to the flag.  The three location fields are set to the
    empty string by [deactivate_user], which adds them to the sanitized
    payload ([clear_location]); that payload stays within the allow-list
    extended by the three fields. *)
Theorem sanitize_allow_list_only d active_status :
  exists clean, sanitize_user_data (PyDict d) active_status = inr clean /\
    dom clean ⊆ list_to_set allowed /\
    clean !! "Active" = Some (PyBool active_status) /\
    Forall (fun f => clean !! f = None) location_fields /\
    Forall (fun f => clear_location clean !! f = Some (PyStr empty_str))
      location_fields /\
    dom (clear_location clean) ⊆ list_to_set (allowed ++ location_fields).
Proof.
  destruct (sanitize_dict d active_status) as (clean & Hs & Hk).
  exists clean. split; [done|].
  pose proof (sanitize_dom _ _ _ Hs) as Hdom.
  split; [done|]. split; [by eapply sanitize_active|].
  split; [|split].
  - unfold location_fields. repeat constructor; by rewrite Hk.
  - unfold location_fields.
    repeat constructor; by rewrite clear_location_lookup.
  - rewrite clear_location_dom, list_to_set_app_L. set_solver.
Qed.

(** C3, counterexample: sanitizing Bob's record with the flag false
    yields a payload without any Region field, so the field is not set to
    the empty string. *)
Lemma sanitize_false_has_no_region :
  exists clean, sanitize_user_data (PyDict (bob_record true)) false = inr clean /\
    clean !! "Region" = None /\
    clean !! "Region" <> Some (PyStr empty_str).
Proof.
  destruct (sanitize_dict (bob_record true) false) as (clean & Hs & Hk).
  exists clean. split; [done|]. rewrite Hk.
  split; [by vm_compute | by vm_compute].
Qed.

(** C10: sanitizing twice with the same flag is sanitizing once.  When
    the first pass raises, so does the composition, with the same
    exception. *)
Theorem sanitize_idempotent user_data active_status :
  (let! clean := sanitize_user_data user_data active_status in
   sanitize_user_data (PyDict clean) active_status)%exc
  = sanitize_user_data user_data active_status.
Proof.
  destruct (sanitize_user_data user_data active_status) as [e|clean] eqn:Hs;
    simpl; [done|].
  destruct (sanitize_dict clean active_status) as (again & -> & Hk).
  f_equal. apply map_eq. intros k. rewrite Hk.
  case_bool_decide as Hact.
  - subst k. symmetry. by eapply sanitize_active.
  - case_bool_decide as Hk'; [done|].
    symmetry. apply not_elem_of_dom. intros Hin.
    apply (sanitize_dom _ _ _ Hs) in Hin. apply Hk'.
    by apply elem_of_list_to_set in Hin.
Qed.

End Sanitizer.

(** ** Running the operations *)

Section Operations.
Context `{Env}.
Implicit Types (username user_id : pyvalue) (d : directory) (t : list event).


Lemma trace_after {A : Type} t (run : A * list event * directory) :
  trace (after t run) = (t ++ trace run)%list.
Proof. done. Qed.

Lemma final_after {A : Type} t (run : A * list event * directory) :
  final (after t run) = final run.
Proof. done. Qed.

Lemma after_nil {A : Type} (run : A * list event * directory) :
  after [] run = run.
Proof. by destruct run as [[a t] d]. Qed.

(** How [try: ... except] unfolds along the statements of its body. *)
Lemma try_mbind {A B : Type} (m : M A) (k : A -> M B) (h : exn -> T B) d :
  try_except (mbind m k) h d =
    after (trace (m d))
      match value (m d) with
      | inl e => h e (final (m d))
      | inr a => try_except (k a) h (final (m d))
      end.
Proof.
  unfold try_except, mbind, tbind, after, value, trace, final.
  destruct (m d) as [[[e|a] t1] d1]; simpl.
  - destruct (h e d1) as [[b t2] d2]; simpl. by rewrite app_nil_r.
  - destruct (k a d1) as [[[e|b] t2] d2]; simpl.
    + destruct (h e d2) as [[b t3] d3]; simpl. by rewrite app_assoc.
    + by rewrite !app_nil_r.
Qed.

Lemma try_mret {A : Type} (a : A) (h : exn -> T A) d :
  try_except (mret a) h d = (a, [], d).
Proof. done. Qed.

Lemma try_lift {A B : Type} (x : exc A) (k : A -> M B) (h : exn -> T B) d :
  try_except (mbind (lift x) k) h d =
    match x with
    | inl e => h e d
    | inr a => try_except (k a) h d
    end.
Proof. rewrite try_mbind. destruct x; apply after_nil. Qed.

Lemma try_requests {B : Type} rq (k : response -> M B) (h : exn -> T B) d :
  try_except (mbind (requests rq) k) h d =
    after [Http rq (serve d rq).1]
      match (serve d rq).1 with
      | Raises e => h e (serve d rq).2
      | Responds r => try_except (k r) h (serve d rq).2
      end.
Proof.
  rewrite try_mbind. unfold requests.
  by destruct (serve d rq) as [[e|r] d1].
Qed.

Lemma try_logger {B : Type} l (k : unit -> M B) (h : exn -> T B) d :
  try_except (mbind (logger l) k) h d = after [Logged l] (try_except (k tt) h d).
Proof. by rewrite try_mbind. Qed.

Lemma try_if {A : Type} (b : bool) (m1 m2 : M A) (h : exn -> T A) d :
  try_except (if b then m1 else m2) h d =
    if b then try_except m1 h d else try_except m2 h d.
Proof. by destruct b. Qed.

Lemma try_assoc {A B C : Type} (m : M A) (k1 : A -> M B) (k2 : B -> M C)
    (h : exn -> T C) d :
  try_except (mbind (mbind m k1) k2) h d =
    try_except (mbind m (fun a => mbind (k1 a) k2)) h d.
Proof.
  unfold try_except, mbind, tbind.
  destruct (m d) as [[[e|a] t1] d1]; simpl.
  - destruct (h e d1) as [[c t2] d2]; simpl. by rewrite ?app_nil_r.
  - destruct (k1 a d1) as [[[e|b] t2] d2]; simpl.
    + destruct (h e d2) as [[c t3] d3]; simpl. by rewrite ?app_nil_r.
    + destruct (k2 b d2) as [[[e|c] t3] d3]; simpl.
      * destruct (h e d3) as [[c t4] d4]; simpl. by rewrite ?app_nil_r, ?app_assoc.
      * by rewrite ?app_nil_r, ?app_assoc.
Qed.

Lemma try_if_assoc {A B : Type} (b : bool) (m1 m2 : M A) (k : A -> M B)
    (h : exn -> T B) d :
  try_except (mbind (if b then m1 else m2) k) h d =
    if b then try_except (mbind m1 k) h d else try_except (mbind m2 k) h d.
Proof. by destruct b. Qed.

Lemma mbind_run {A B : Type} (m : M A) (k : A -> M B) d :
  mbind m k d =
    after (trace (m d))
      match value (m d) with
      | inl e => (inl e, [], final (m d))
      | inr a => k a (final (m d))
      end.
Proof.
  unfold mbind, tbind, after, value, trace, final.
  destruct (m d) as [[[e|a] t1] d1]; simpl; [done|].
  by destruct (k a d1) as [[b t2] d2].
Qed.

Lemma mbind_lift {A B : Type} (x : exc A) (k : A -> M B) d :
  mbind (lift x) k d =
    match x with
    | inl e => (inl e, [], d)
    | inr a => k a d
    end.
Proof. rewrite mbind_run. destruct x; apply after_nil. Qed.

Lemma mbind_requests {B : Type} rq (k : response -> M B) d :
  mbind (requests rq) k d =
    after [Http rq (serve d rq).1]
      match (serve d rq).1 with
      | Raises e => (inl e, [], (serve d rq).2)
      | Responds r => k r (serve d rq).2
      end.
Proof.
  rewrite mbind_run. unfold requests.
  by destruct (serve d rq) as [[e|r] d1].
Qed.

Lemma mbind_logger {B : Type} l (k : unit -> M B) d :
  mbind (logger l) k d = after [Logged l] (k tt d).
Proof. by rewrite mbind_run. Qed.

Lemma mbind_mret {A B : Type} (a : A) (k : A -> M B) d :
  mbind (mret a) k d = k a d.
Proof. rewrite mbind_run. apply after_nil. Qed.

Ltac step :=
  first [ rewrite try_requests | rewrite try_lift | rewrite try_logger
        | rewrite try_if | rewrite try_mret | rewrite try_assoc
        | rewrite try_if_assoc ].

(** Case analysis on everything the directory and the data decide. *)
Ltac branch :=
  match goal with
  | |- context [if ?b then _ else _] =>
      let E := fresh "E" in destruct b eqn:E
  | |- context [serve ?d ?rq] =>
      let o := fresh "o" in let d' := fresh "d" in let E := fresh "Eserve" in
      destruct (serve d rq) as [o d'] eqn:E; cbn [fst snd];
      destruct o as [?e|?r]
  | |- context [match ?x with inl _ => _ | inr _ => _ end] =>
      let E := fresh "E" in destruct x eqn:E
  end.

Ltac settle :=
  cbn [after value trace final fst snd app tbind logger tret].

(** *** The team removal loop *)

Lemma remove_from_teams_cons username user_id team rest d :
  remove_from_teams username user_id (team :: rest) d =
    match py_get team "Id" PyNone with
    | inl e => (inl e, [], d)
    | inr team_id =>
        let rq := DELETE (teams_id_users_id team_id user_id) in
        after [Http rq (serve d rq).1]
          match (serve d rq).1 with
          | Raises e => (inl e, [], (serve d rq).2)
          | Responds r =>
              after (if negb (status_in (status_code r) [200; 204])
                     then [Logged (Warning_remove_failed username team_id (text r))]
                     else [])
                (remove_from_teams username user_id rest (serve d rq).2)
          end
    end.
Proof.
  cbn [remove_from_teams]. rewrite mbind_lift.
  destruct (py_get team "Id" PyNone) as [e|team_id]; [done|].
  rewrite mbind_requests. cbn zeta.
  destruct (serve d (DELETE (teams_id_users_id team_id user_id))) as [[e|r] d1];
    cbn [fst snd]; [done|].
  f_equal.
  destruct (negb (status_in (status_code r) [200; 204]));
    [by rewrite mbind_logger | by rewrite mbind_mret, after_nil].
Qed.

Lemma remove_from_teams_events username user_id items d :
  forallb removal_event (trace (remove_from_teams username user_id items d)) = true.
Proof.
  revert d. induction items as [|team rest IH]; intros d; [done|].
  rewrite remove_from_teams_cons.
  destruct (py_get team "Id" PyNone) as [e|team_id]; [done|]. cbn zeta.
  destruct (serve d (DELETE (teams_id_users_id team_id user_id))) as [[e|r] d1];
    cbn [fst snd]; [done|].
  rewrite !trace_after, !forallb_app, IH.
  by destruct (negb (status_in (status_code r) [200; 204])).
Qed.



Lemma removal_event_no_put t :
  forallb removal_event t = true -> put_bodies t = [].
Proof.
  induction t as [|ev t IH]; [done|]. cbn [forallb].
  intros [Hev Ht]%andb_prop.
  destruct ev as [[u|u data|u] o|l]; try discriminate; cbn; auto.
Qed.

Ltac walk := repeat (first [ branch | step ]; cbv beta iota).

(** *** Facts about traces *)

Lemma put_bodies_app t1 t2 :
  put_bodies (t1 ++ t2) = (put_bodies t1 ++ put_bodies t2)%list.
Proof.
  induction t1 as [|[[u|u data|u] o|l] t1 IH]; cbn [put_bodies app]; by rewrite ?IH.
Qed.

Lemma calls_app t1 t2 : calls (t1 ++ t2) = (calls t1 ++ calls t2)%list.
Proof.
  induction t1 as [|[rq o|l] t1 IH]; cbn [calls app]; by rewrite ?IH.
Qed.

Lemma removal_event_not_put t :
  forallb removal_event t = true ->
  existsb rejected_update t = false /\ existsb accepted_update t = false.
Proof.
  induction t as [|ev t IH]; [done|]. cbn [forallb].
  intros [Hev Ht]%andb_prop. destruct (IH Ht) as [IH1 IH2].
  cbn [existsb]. rewrite IH1, IH2.
  by destruct ev as [[u|u data|u] o|l].
Qed.

(** What the team phase of [deactivate_user] leaves in the trace once the
    listing has been answered. *)
Lemma team_phase {R : OperationResult} username user_id items
    (h : exn -> T OperationResult) d :
  try_except (mbind (remove_from_teams username user_id items)
                (fun _ => mret R)) h d =
    after (trace (remove_from_teams username user_id items d))
      match value (remove_from_teams username user_id items d) with
      | inl e => h e (final (remove_from_teams username user_id items d))
      | inr _ => (R, [], final (remove_from_teams username user_id items d))
      end.
Proof. by rewrite try_mbind. Qed.

(** C4, as amended: every update body sent by an activation lies within
    the allow-list; every update body sent by a deactivation lies within
    the allow-list extended by Region, Area and Country, and carries these
    three fields with the empty string. *)
Theorem update_bodies_within_allow_list username d :
  Forall (fun data => dom data ⊆ list_to_set allowed)
    (put_bodies (trace (activate_user username d))) /\
  Forall (fun data =>
            dom data ⊆ list_to_set (allowed ++ location_fields) /\
            Forall (fun f => data !! f = Some (PyStr empty_str)) location_fields)
    (put_bodies (trace (deactivate_user username d))).
Proof.
  split.
  - unfold activate_user. walk; settle; cbn [put_bodies];
      repeat constructor; by eapply sanitize_dom.
  - unfold deactivate_user. walk; rewrite ?team_phase; settle;
      rewrite ?trace_after; cbn [put_bodies app];
      rewrite ?put_bodies_app,
        ?(removal_event_no_put _ (remove_from_teams_events _ _ _ _));
      cbn [app]; repeat constructor.
    all: try by rewrite clear_location_lookup.
    all: try (rewrite clear_location_dom, list_to_set_app_L;
              match goal with
              | Hs : sanitize_user_data _ _ = inr _ |- _ =>
                  apply sanitize_dom in Hs; set_solver
              end).
    all: match goal with
         | |- context [match ?x with inl _ => _ | inr _ => _ end] =>
             destruct x
         end; settle; cbn [put_bodies]; constructor.
Qed.

(** *** The idempotency guards *)

Lemma truthy_dict m k v : m !! k = Some v -> truthy (PyDict m) = true.
Proof.
  intros Hk. cbn [truthy]. destruct (size m) eqn:Hsize; [|done].
  apply map_size_empty_iff in Hsize. subst m. by rewrite lookup_empty in Hk.
Qed.

Lemma activate_user_already_active username d resp d1 users m :
  serve d (GET (users_search username)) = (Responds resp, d1) ->
  status_code resp = 200 ->
  json resp = inr users ->
  find_user users username = inr (PyDict m) ->
  m !! "Active" = Some (PyBool true) ->
  activate_user username d =
    (Result username false "Error: User is already active. Duplicate activation attempt.",
     [Http (GET (users_search username)) (Responds resp)], d1).
Proof.
  intros Hs Hc Hj Hf Ha. unfold activate_user.
  rewrite try_requests, Hs. cbn [fst snd]. rewrite Hc, Z.eqb_refl. cbn [negb].
  rewrite try_lift, Hj, try_lift, Hf, try_if, (truthy_dict _ _ _ Ha). cbn [negb].
  rewrite try_lift. cbn [py_get]. rewrite try_lift. cbn [py_get].
  rewrite Ha, try_if. cbn [truthy]. by rewrite try_mret.
Qed.

Lemma deactivate_user_already_inactive username d resp d1 users m :
  serve d (GET (users_search username)) = (Responds resp, d1) ->
  status_code resp = 200 ->
  json resp = inr users ->
  find_user users username = inr (PyDict m) ->
  m !! "Active" = Some (PyBool false) ->
  deactivate_user username d =
    (Result username false "Error: User is already inactive. Duplicate deactivation attempt.",
     [Http (GET (users_search username)) (Responds resp)], d1).
Proof.
  intros Hs Hc Hj Hf Ha. unfold deactivate_user.
  rewrite try_requests, Hs. cbn [fst snd]. rewrite Hc, Z.eqb_refl. cbn [negb].
  rewrite try_lift, Hj, try_lift, Hf, try_if, (truthy_dict _ _ _ Ha). cbn [negb].
  rewrite try_lift. cbn [py_get]. rewrite try_lift. cbn [py_get].
  rewrite Ha, try_if. cbn [truthy negb]. by rewrite try_mret.
Qed.

(** C2: when the search answers 200 and the record it selects has Active
    true, activation returns the duplicate-activation failure and sends no
    update; when the record has Active false, deactivation returns the
    duplicate-deactivation failure and sends no update. *)
Theorem duplicate_state_refused username d resp d1 users m (active : bool) :
  serve d (GET (users_search username)) = (Responds resp, d1) ->
  status_code resp = 200 ->
  json resp = inr users ->
  find_user users username = inr (PyDict m) ->
  m !! "Active" = Some (PyBool active) ->
  let run := if active then activate_user username d
             else deactivate_user username d in
  value run =
    Result username false
      (if active
       then "Error: User is already active. Duplicate activation attempt."
       else "Error: User is already inactive. Duplicate deactivation attempt.") /\
  existsb is_put (calls (trace run)) = false.
Proof.
  intros Hs Hc Hj Hf Ha. destruct active; cbv zeta.
  - by rewrite (activate_user_already_active _ _ _ _ _ _ Hs Hc Hj Hf Ha).
  - by rewrite (deactivate_user_already_inactive _ _ _ _ _ _ Hs Hc Hj Hf Ha).
Qed.

(** C8: deactivating a user whose selected record is already inactive
    returns the duplicate-deactivation failure for that username, and no
    call is made beyond the search and the detail fetch; indeed the guard
    comes before the detail fetch, and the search is the only call. *)
Theorem deactivate_inactive_makes_no_further_call username d resp d1 users m :
  serve d (GET (users_search username)) = (Responds resp, d1) ->
  status_code resp = 200 ->
  json resp = inr users ->
  find_user users username = inr (PyDict m) ->
  m !! "Active" = Some (PyBool false) ->
  value (deactivate_user username d) =
    Result username false
      "Error: User is already inactive. Duplicate deactivation attempt." /\
  forallb search_or_details (calls (trace (deactivate_user username d))) = true /\
  calls (trace (deactivate_user username d)) = [GET (users_search username)].
Proof.
  intros Hs Hc Hj Hf Ha.
  by rewrite (deactivate_user_already_inactive _ _ _ _ _ _ Hs Hc Hj Hf Ha).
Qed.

(** C9: on a selected record without an Active field, the activation
    guard reads the default false and the deactivation guard reads the
    default true, so neither guard fires; both operations go on to fetch
    the details of the record. *)
Theorem missing_active_passes_both_guards username d resp d1 users m :
  serve d (GET (users_search username)) = (Responds resp, d1) ->
  status_code resp = 200 ->
  json resp = inr users ->
  find_user users username = inr (PyDict m) ->
  truthy (PyDict m) = true ->
  m !! "Active" = None ->
  ((let! active := py_get (PyDict m) "Active" (PyBool false) in
    inr (truthy active))%exc = inr false /\
   (let! active := py_get (PyDict m) "Active" (PyBool true) in
    inr (negb (truthy active)))%exc = inr false) /\
  calls (trace (activate_user username d)) !! 1%nat =
    Some (GET (users_id (default PyNone (m !! "Id")))) /\
  calls (trace (deactivate_user username d)) !! 1%nat =
    Some (GET (users_id (default PyNone (m !! "Id")))).
Proof.
  intros Hs Hc Hj Hf Hm Ha. split; [|split].
  - cbn [py_get exc_bind]. by rewrite Ha.
  - unfold activate_user.
    rewrite try_requests, Hs. cbn [fst snd]. rewrite Hc, Z.eqb_refl. cbn [negb].
    rewrite try_lift, Hj, try_lift, Hf, try_if, Hm. cbn [negb].
    rewrite try_lift. cbn [py_get]. rewrite try_lift. cbn [py_get].
    rewrite Ha, try_if. cbn [truthy]. rewrite try_requests.
    by rewrite !trace_after, !calls_app.
  - unfold deactivate_user.
    rewrite try_requests, Hs. cbn [fst snd]. rewrite Hc, Z.eqb_refl. cbn [negb].
    rewrite try_lift, Hj, try_lift, Hf, try_if, Hm. cbn [negb].
    rewrite try_lift. cbn [py_get]. rewrite try_lift. cbn [py_get].
    rewrite Ha, try_if. cbn [truthy negb]. rewrite try_requests.
    by rewrite !trace_after, !calls_app.
Qed.

(** C6: a deactivation whose update is answered with a status outside
    200, 201 and 204 reports failure and makes no team call. *)
Theorem rejected_update_skips_team_cleanup username d :
  put_rejected (trace (deactivate_user username d)) = true ->
  r_success (value (deactivate_user username d)) = false /\
  existsb is_team_call (calls (trace (deactivate_user username d))) = false.
Proof.
  unfold deactivate_user. walk; rewrite ?team_phase; settle;
    rewrite ?trace_after; unfold put_rejected;
    cbn [existsb orb calls is_team_call r_success app rejected_update];
    try (intros; discriminate); try (intros _; split; reflexivity).
  all: match goal with
       | E : negb (status_in _ _) = false |- _ => rewrite E
       end; cbn [orb]; try (intros; discriminate).
  rewrite existsb_app.
  rewrite (proj1 (removal_event_not_put _ (remove_from_teams_events _ _ _ _))).
  by destruct (value (remove_from_teams _ _ _ _)).
Qed.



(** *** The batch *)

Lemma activate_user_username username d :
  r_username (value (activate_user username d)) = username.
Proof. unfold activate_user. walk; by settle. Qed.

Lemma deactivate_user_username username d :
  r_username (value (deactivate_user username d)) = username.
Proof.
  unfold deactivate_user. walk; rewrite ?team_phase; settle; try done.
  by destruct (value (remove_from_teams _ _ _ _)).
Qed.

Lemma lifecycle_username operation_type username d :
  r_username (value (lifecycle operation_type username d)) = username.
Proof.
  unfold lifecycle. destruct (op_is operation_type "activation");
    [apply activate_user_username | apply deactivate_user_username].
Qed.

Lemma tbind_run {A B : Type} (m : T A) (k : A -> T B) d :
  tbind m k d = after (trace (m d)) (k (value (m d)) (final (m d))).
Proof.
  unfold tbind, after, value, trace, final.
  destruct (m d) as [[a t1] d1]; cbn. by destruct (k a d1) as [[b t2] d2].
Qed.

Lemma each_in_turn_cons (operation : pyvalue -> T OperationResult)
    username rest d :
  each_in_turn operation (username :: rest) d =
    (value (operation username d)
       :: value (each_in_turn operation rest (final (operation username d))),
     (trace (operation username d)
        ++ trace (each_in_turn operation rest (final (operation username d))))%list,
     final (each_in_turn operation rest (final (operation username d)))).
Proof.
  cbn [each_in_turn]. rewrite !tbind_run. unfold after, tret; cbn.
  by rewrite app_nil_r.
Qed.

Lemma each_in_turn_usernames operation_type usernames d :
  r_username <$> value (each_in_turn (lifecycle operation_type) usernames d)
  = usernames.
Proof.
  revert d. induction usernames as [|username rest IH]; intros d; [done|].
  rewrite each_in_turn_cons. cbn. by rewrite lifecycle_username, IH.
Qed.

Lemma each_in_turn_length operation_type usernames d :
  length (value (each_in_turn (lifecycle operation_type) usernames d))
  = length usernames.
Proof.
  rewrite <- (each_in_turn_usernames operation_type usernames d) at 2.
  by rewrite length_fmap.
Qed.

Lemma for_usernames_cons operation_type username rest results d :
  recognized operation_type = true ->
  for_usernames operation_type (username :: rest) results d =
    after (trace (lifecycle operation_type username d))
      (for_usernames operation_type rest
         (results ++ [value (lifecycle operation_type username d)])
         (final (lifecycle operation_type username d))).
Proof.
  unfold recognized, lifecycle. cbn [for_usernames].
  destruct (op_is operation_type "activation");
    [|destruct (op_is operation_type "deactivation"); [|done]];
    intros _; by rewrite tbind_run.
Qed.

(** With a recognized operation the row loop never leaves early: it
    appends to [results] what the rows yield one after the other. *)
Lemma for_usernames_recognized operation_type usernames results d :
  recognized operation_type = true ->
  for_usernames operation_type usernames results d =
    (inr (results ++ value (each_in_turn (lifecycle operation_type) usernames d))%list,
     trace (each_in_turn (lifecycle operation_type) usernames d),
     final (each_in_turn (lifecycle operation_type) usernames d)).
Proof.
  intros Hop. revert results d.
  induction usernames as [|username rest IH]; intros results d.
  - cbn. by rewrite app_nil_r.
  - rewrite (for_usernames_cons _ _ _ _ _ Hop), IH, each_in_turn_cons.
    unfold after; cbn. by rewrite <- app_assoc.
Qed.

(** C1: with a recognized operation type, the batch answers with one
    result per username, in the order of the input; the results are
    those of the rows run one after the other, each on the directory left
    by the previous row, so that no result of a row keeps a later row
    from being processed. *)
Theorem process_csv_one_result_per_row operation_type usernames s d :
  recognized operation_type = true ->
  exists results,
    value (process_csv operation_type usernames s d) =
      (jsonify_success results,
       Session (Some results)
         (Some (if op_is operation_type "activation"
                then "Activation" else "Deactivation"))) /\
    each_in_turn (lifecycle operation_type) usernames d =
      (results, trace (process_csv operation_type usernames s d),
       final (process_csv operation_type usernames s d)) /\
    r_username <$> results = usernames /\
    length results = length usernames.
Proof.
  intros Hop.
  exists (value (each_in_turn (lifecycle operation_type) usernames d)).
  unfold process_csv, tbind.
  rewrite (for_usernames_recognized _ _ _ _ Hop).
  split; [|split; [|split]].
  - done.
  - cbn. rewrite app_nil_r.
    by destruct (each_in_turn (lifecycle operation_type) usernames d) as [[rs t] d'].
  - apply each_in_turn_usernames.
  - apply each_in_turn_length.
Qed.

(** An unrecognized operation type is refused at the first row, before
    any call is made. *)
Lemma process_csv_invalid_first_row operation_type username rest s d :
  recognized operation_type = false ->
  process_csv operation_type (username :: rest) s d =
    ((jsonify_error "Invalid operation type" 400, s), [], d).
Proof.
  unfold recognized. intros [Ha Hd]%orb_false_elim.
  unfold process_csv, tbind. cbn [for_usernames]. by rewrite Ha, Hd.
Qed.

(** Without rows the loop body, and with it the check of the operation
    type, never runs. *)
Lemma process_csv_no_rows operation_type s d :
  process_csv operation_type [] s d =
    ((jsonify_success [],
      Session (Some [])
        (Some (if op_is operation_type "activation"
               then "Activation" else "Deactivation"))), [], d).
Proof. done. Qed.

(** *** Which record the search step selects *)

Lemma next_match_skip u x s rest :
  candidate_name u = Some x -> lower x <> lower s ->
  next_match (u :: rest) (PyStr s) = next_match rest (PyStr s).
Proof.
  intros Hu Hne. destruct u as [| | | | |?|m]; try discriminate.
  cbn in Hu |- *. destruct (m !! "UserName") as [[]|]; try discriminate;
    injection Hu as ->; cbn; by rewrite (proj2 (String.eqb_neq _ _) Hne).
Qed.

Lemma next_match_hit u x s rest :
  candidate_name u = Some x -> lower x = lower s ->
  next_match (u :: rest) (PyStr s) = inr u.
Proof.
  intros Hu He. destruct u as [| | | | |?|m]; try discriminate.
  cbn in Hu |- *. destruct (m !! "UserName") as [[]|]; try discriminate;
    injection Hu as ->; cbn; by rewrite He, String.eqb_refl.
Qed.

(** The search step selects the first candidate whose name equals the
    username up to case, whatever follows it, provided the candidates
    before it are records with a string (or no) name. *)
Theorem find_user_first_match (before following : list pyvalue) u x s :
  Forall (fun c => exists y, candidate_name c = Some y /\ lower y <> lower s) before ->
  candidate_name u = Some x ->
  lower x = lower s ->
  find_user (PyList (before ++ u :: following)) (PyStr s) = inr u.
Proof.
  intros Hbefore Hu He. unfold find_user. cbn [py_iter exc_bind].
  induction Hbefore as [|c before (y & Hc & Hne) _ IH].
  - by apply next_match_hit with x.
  - rewrite <- app_comm_cons. by rewrite (next_match_skip _ _ _ _ Hc Hne).
Qed.

Lemma next_match_sound items username v :
  next_match items username = inr v ->
  v = PyNone \/
  exists s x, username = PyStr s /\ v ∈ items /\
    candidate_name v = Some x /\ lower x = lower s.
Proof.
  induction items as [|u items IH]; cbn [next_match].
  - intros [= <-]. by left.
  - destruct u as [| | | | |?|m]; try discriminate. cbn [py_get exc_bind].
    destruct (m !! "UserName") as [name|] eqn:Hname.
    + destruct name as [| | | |x| |]; try discriminate. cbn.
      destruct username as [| | | |s| |]; try discriminate. cbn.
      destruct (String.eqb_spec (lower x) (lower s)) as [He|Hne].
      * intros [= <-]. right. exists s, x. cbn. rewrite Hname.
        repeat split; [by left | done].
      * intros Hv. destruct (IH Hv) as [->|(s' & x' & Hs & Hin & Hc & He)];
          [by left|]. right. exists s', x'. repeat split; try done. by right.
    + cbn. destruct username as [| | | |s| |]; try discriminate. cbn.
      destruct (String.eqb_spec (lower empty_str) (lower s)) as [He|Hne].
      * intros [= <-]. right. exists s, empty_str. cbn. rewrite Hname.
        repeat split; [by left | done].
      * intros Hv. destruct (IH Hv) as [->|(s' & x' & Hs & Hin & Hc & He)];
          [by left|]. right. exists s', x'. repeat split; try done. by right.
Qed.

(** Whatever the search step selects is one of the candidates listed,
    and its name equals the username up to case; otherwise the step
    selects nothing. *)
Theorem find_user_sound users username v :
  find_user users username = inr v ->
  v = PyNone \/
  exists l s x, users = PyList l /\ username = PyStr s /\ v ∈ l /\
    candidate_name v = Some x /\ lower x = lower s.
Proof.
  unfold find_user. destruct users as [| | | |t|l|m]; try discriminate;
    cbn [py_iter exc_bind]; intros Hv;
    destruct (next_match_sound _ _ _ Hv) as [->|(s & x & Hs & Hin & Hc & He)];
    try by left.
  - exfalso. revert Hin Hc. clear.
    induction t as [|c t IH]; cbn; intros Hin Hc.
    + by apply elem_of_nil in Hin.
    + apply elem_of_cons in Hin as [->|Hin]; [done | by apply IH].
  - right. by exists l, s, x.
  - exfalso. apply list_elem_of_fmap in Hin as (k & -> & _). discriminate.
Qed.

(** *** How the operations end when the search step fails *)

Lemma next_match_not_a_string username u rest :
  is_str_value username = false -> named_record u = true ->
  next_match (u :: rest) username = inl (AttributeError username "lower").
Proof.
  intros Hu Hrec. destruct u as [| | | | |?|m]; try discriminate.
  cbn in Hrec |- *. destruct (m !! "UserName") as [[]|]; try discriminate;
    by destruct username.
Qed.

(** A username that is not a string (a blank cell, a number) makes both
    operations end in their exception handler as soon as the search lists
    a record: the row fails with the text of the [AttributeError], and
    nothing is called after the search. *)
Theorem non_string_username_fails_row username d resp d1 u rest :
  serve d (GET (users_search username)) = (Responds resp, d1) ->
  status_code resp = 200 ->
  json resp = inr (PyList (u :: rest)) ->
  named_record u = true ->
  is_str_value username = false ->
  let failure :=
    Result username false
      ("Error: '" +:+ type_name username +:+ "' object has no attribute 'lower'") in
  (value (activate_user username d) = failure /\
   calls (trace (activate_user username d)) = [GET (users_search username)]) /\
  (value (deactivate_user username d) = failure /\
   calls (trace (deactivate_user username d)) = [GET (users_search username)]).
Proof.
  intros Hs Hc Hj Hrec Hu. cbv zeta.
  pose proof (next_match_not_a_string _ _ rest Hu Hrec) as Hnext.
  split.
  - unfold activate_user.
    rewrite try_requests, Hs. cbn [fst snd]. rewrite Hc, Z.eqb_refl. cbn [negb].
    rewrite try_lift, Hj, try_lift. unfold find_user. cbn [py_iter exc_bind].
    by rewrite Hnext.
  - unfold deactivate_user.
    rewrite try_requests, Hs. cbn [fst snd]. rewrite Hc, Z.eqb_refl. cbn [negb].
    rewrite try_lift, Hj, try_lift. unfold find_user. cbn [py_iter exc_bind].
    by rewrite Hnext.
Qed.

(** When the search call raises, or is answered with a status other than
    200, both operations report the failure with the exception text or
    the response body, and make no further call. *)
Theorem failed_search_ends_operation username d o d1 :
  serve d (GET (users_search username)) = (o, d1) ->
  match o with
  | Raises _ => True
  | Responds r => status_code r <> 200
  end ->
  let failure :=
    Result username false
      match o with
      | Raises e => "Error: " +:+ e
      | Responds r => "Failed to find user: " +:+ text r
      end in
  (value (activate_user username d) = failure /\
   calls (trace (activate_user username d)) = [GET (users_search username)] /\
   final (activate_user username d) = d1) /\
  (value (deactivate_user username d) = failure /\
   calls (trace (deactivate_user username d)) = [GET (users_search username)] /\
   final (deactivate_user username d) = d1).
Proof.
  intros Hs Ho. cbv zeta. split.
  - unfold activate_user. rewrite try_requests, Hs. cbn [fst snd].
    destruct o as [e|r]; [done|].
    apply Z.eqb_neq in Ho. by rewrite Ho.
  - unfold deactivate_user. rewrite try_requests, Hs. cbn [fst snd].
    destruct o as [e|r]; [done|].
    apply Z.eqb_neq in Ho. by rewrite Ho.
Qed.

(** *** The calls of an operation *)

(** An activation makes at most three calls, in this order: the search,
    the detail fetch and the update, the last two on the URL of the same
    user id. *)
Theorem activation_calls username d :
  exists user_id body,
    calls (trace (activate_user username d)) `prefix_of`
      [GET (users_search username); GET (users_id user_id);
       PUT (users_id user_id) body].
Proof.
  unfold activate_user. walk; settle; cbn [calls];
    first [ by exists PyNone, ∅; eexists
          | by eexists _, ∅; eexists
          | by eexists _, _; eexists ].
Qed.

(** An activation reports success exactly when its update was answered
    with 200, 201 or 204. *)
Theorem activation_success_iff_accepted username d :
  r_success (value (activate_user username d))
  = put_accepted (trace (activate_user username d)).
Proof.
  unfold activate_user. walk; settle; unfold put_accepted;
    cbn [existsb orb accepted_update r_success]; try done.
  all: match goal with E : status_in _ _ = _ |- _ => by rewrite E end.
Qed.

Lemma removal_event_not_error t :
  forallb removal_event t = true -> existsb error_logged t = false.
Proof.
  induction t as [|ev t IH]; [done|]. cbn [forallb existsb].
  intros [Hev Ht]%andb_prop. rewrite (IH Ht).
  by destruct ev as [[u|u data|u] o|[]].
Qed.

(** A deactivation reports success exactly when its update was answered
    with 200, 201 or 204 and its exception handler did not run. *)
Theorem deactivation_success_characterised username d :
  r_success (value (deactivate_user username d))
  = (put_accepted (trace (deactivate_user username d))
     && negb (existsb error_logged (trace (deactivate_user username d))))%bool.
Proof.
  unfold deactivate_user. walk; rewrite ?team_phase; settle;
    rewrite ?trace_after; unfold put_accepted;
    cbn [existsb orb andb negb accepted_update error_logged r_success app];
    try done.
  all: try match goal with
           | E : negb (status_in _ _) = _ |- _ =>
               apply (f_equal negb) in E; rewrite negb_involutive in E;
               cbn [negb] in E; by rewrite E
           end.
  match goal with
  | E : negb (status_in _ _) = _ |- _ =>
      apply (f_equal negb) in E; rewrite negb_involutive in E;
      cbn [negb] in E; rewrite E
  end.
  cbn [orb andb]. rewrite existsb_app.
  rewrite (removal_event_not_error _ (remove_from_teams_events _ _ _ _)).
  by destruct (value (remove_from_teams _ _ _ _)).
Qed.

Lemma remove_from_teams_calls username user_id items d :
  Forall (fun rq => exists team_id, rq = DELETE (teams_id_users_id team_id user_id))
    (calls (trace (remove_from_teams username user_id items d))).
Proof.
  revert d. induction items as [|team rest IH]; intros d; [constructor|].
  rewrite remove_from_teams_cons.
  destruct (py_get team "Id" PyNone) as [e|team_id]; [constructor|]. cbn zeta.
  destruct (serve d (DELETE (teams_id_users_id team_id user_id))) as [[e|r] d1];
    cbn [fst snd].
  - repeat constructor. by exists team_id.
  - rewrite !trace_after, !calls_app. cbn [calls app].
    constructor; [by exists team_id|].
    destruct (negb (status_in (status_code r) [200; 204])); cbn [calls app]; apply IH.
Qed.

(** A deactivation makes its calls in this order: the search, the detail
    fetch, the update, the team listing, then team removals only; all of
    them after the search concern the same user id. *)
Theorem deactivation_calls username d :
  exists user_id body removals,
    calls (trace (deactivate_user username d)) `prefix_of`
      ([GET (users_search username); GET (users_id user_id);
        PUT (users_id user_id) body; GET (users_id_teams user_id)] ++ removals)%list /\
    Forall (fun rq => exists team_id, rq = DELETE (teams_id_users_id team_id user_id))
      removals.
Proof.
  unfold deactivate_user. walk; rewrite ?team_phase; settle;
    rewrite ?trace_after; cbn [calls app];
    try first [ by exists PyNone, ∅, []; split; [eexists|constructor]
              | by eexists _, ∅, []; split; [eexists|constructor]
              | by eexists _, _, []; split; [eexists|constructor] ].
  rewrite calls_app.
  destruct (value (remove_from_teams _ _ _ _)); settle; cbn [calls];
    rewrite app_nil_r;
    (eexists _, _, _; split; [|apply remove_from_teams_calls]);
    exists []; by rewrite app_nil_r.
Qed.

(** Every update body is the sanitized body of a detail fetch that the
    same operation made and that was answered with 200: sanitized with
    the flag true for an activation, with the flag false and the location
    fields cleared for a deactivation.  Nothing of the search record, and
    nothing made up, is ever sent. *)
Theorem update_body_is_sanitized_detail username d :
  Forall (fun body =>
            Exists (fetched_payload true (fun clean => clean) body)
              (trace (activate_user username d)))
    (put_bodies (trace (activate_user username d))) /\
  Forall (fun body =>
            Exists (fetched_payload false clear_location body)
              (trace (deactivate_user username d)))
    (put_bodies (trace (deactivate_user username d))).
Proof.
  split.
  - unfold activate_user. walk; settle; cbn [put_bodies];
      (first [ by constructor | constructor; [|by constructor] ]).
    all: apply Exists_cons_tl, Exists_cons_hd; eexists _, _, _, _;
      split; [reflexivity|]; split; [|by eauto].
    all: by match goal with
            | E : negb (Z.eqb (status_code ?r) 200) = false |- status_code ?r = 200 =>
                apply negb_false_iff, Z.eqb_eq in E
            end.
  - unfold deactivate_user. walk; rewrite ?team_phase; settle;
      rewrite ?trace_after; cbn [put_bodies app];
      rewrite ?put_bodies_app,
        ?(removal_event_no_put _ (remove_from_teams_events _ _ _ _));
      cbn [app].
    all: try match goal with
             | |- context [put_bodies (trace match ?x with inl _ => _ | inr _ => _ end)] =>
                 destruct x; settle; cbn [put_bodies]
             end.
    all: first [ by constructor | constructor; [|by constructor] ].
    all: apply Exists_cons_tl, Exists_cons_hd; eexists _, _, _, _;
      split; [reflexivity|]; split; [|by eauto].
    all: by match goal with
            | E : negb (Z.eqb (status_code ?r) 200) = false |- status_code ?r = 200 =>
                apply negb_false_iff, Z.eqb_eq in E
            end.
Qed.

(** As long as no call raises, the loop over a listing of team objects
    issues exactly one removal per team, in the order of the listing,
    whatever the removals before it were answered; a team without an Id
    is removed under the id None. *)
Theorem one_removal_per_team username user_id items d :
  forallb is_dict items = true ->
  call_raised (trace (remove_from_teams username user_id items d)) = false ->
  calls (trace (remove_from_teams username user_id items d))
  = removal_of user_id <$> items.
Proof.
  revert d. induction items as [|team rest IH]; intros d; [done|].
  cbn [forallb]. intros [Hteam Hrest]%andb_prop.
  rewrite remove_from_teams_cons.
  destruct team as [| | | | | |m]; try discriminate. cbn [py_get]. cbn zeta.
  destruct (serve d _) as [[e|r] d1]; cbn [fst snd]; [done|].
  rewrite !trace_after. unfold call_raised. rewrite !existsb_app.
  intros [_ [_ Hloop]%orb_false_elim]%orb_false_elim.
  rewrite !calls_app, (IH _ Hrest Hloop). cbn [calls app fmap list_fmap].
  by destruct (negb (status_in (status_code r) [200; 204])).
Qed.

(** *** Batches *)

Lemma each_in_turn_app (operation : pyvalue -> T OperationResult) us1 us2 d :
  each_in_turn operation (us1 ++ us2) d =
    ((value (each_in_turn operation us1 d)
        ++ value (each_in_turn operation us2 (final (each_in_turn operation us1 d))))%list,
     (trace (each_in_turn operation us1 d)
        ++ trace (each_in_turn operation us2 (final (each_in_turn operation us1 d))))%list,
     final (each_in_turn operation us2 (final (each_in_turn operation us1 d)))).
Proof.
  revert d. induction us1 as [|u us1 IH]; intros d.
  - cbn. by destruct (each_in_turn operation us2 d) as [[rs t] d'].
  - rewrite <- app_comm_cons, !each_in_turn_cons, IH. cbn.
    by rewrite app_assoc.
Qed.

Lemma process_csv_recognized operation_type usernames s d :
  recognized operation_type = true ->
  process_csv operation_type usernames s d =
    ((jsonify_success (value (each_in_turn (lifecycle operation_type) usernames d)),
      Session (Some (value (each_in_turn (lifecycle operation_type) usernames d)))
        (Some (if op_is operation_type "activation"
               then "Activation" else "Deactivation"))),
     trace (each_in_turn (lifecycle operation_type) usernames d),
     final (each_in_turn (lifecycle operation_type) usernames d)).
Proof.
  intros Hop. unfold process_csv, tbind.
  rewrite (for_usernames_recognized _ _ _ _ Hop). cbn. by rewrite app_nil_r.
Qed.

(** A batch can be cut in two: running the first rows, then the
    remaining rows on the directory the first run left, gives the results
    and the calls of the whole batch. *)
Theorem batch_in_two_parts operation_type us1 us2 s s' d :
  recognized operation_type = true ->
  exists results1 results2,
    (value (process_csv operation_type us1 s d)).1 = jsonify_success results1 /\
    (value (process_csv operation_type us2 s'
              (final (process_csv operation_type us1 s d)))).1
      = jsonify_success results2 /\
    (value (process_csv operation_type (us1 ++ us2) s d)).1
      = jsonify_success (results1 ++ results2) /\
    trace (process_csv operation_type (us1 ++ us2) s d)
      = (trace (process_csv operation_type us1 s d)
         ++ trace (process_csv operation_type us2 s'
                     (final (process_csv operation_type us1 s d))))%list /\
    final (process_csv operation_type (us1 ++ us2) s d)
      = final (process_csv operation_type us2 s'
                 (final (process_csv operation_type us1 s d))).
Proof.
  intros Hop. rewrite !(process_csv_recognized _ _ _ _ Hop).
  rewrite each_in_turn_app. cbn. eauto 10.
Qed.

Lemma activate_user_calls_length username d :
  (length (calls (trace (activate_user username d))) <= 3)%nat.
Proof. unfold activate_user. walk; settle; cbn; lia. Qed.

(** An activation batch makes at most three calls per row. *)
Theorem activation_batch_calls_bound usernames s d :
  (length (calls (trace (process_csv (Some "activation") usernames s d)))
   <= 3 * length usernames)%nat.
Proof.
  rewrite process_csv_recognized by done.
  change (lifecycle (Some "activation")) with activate_user.
  cbn [trace fst snd]. revert d.
  induction usernames as [|u usernames IH]; intros d; [cbn; lia|].
  rewrite each_in_turn_cons. cbn [trace fst snd].
  rewrite calls_app, length_app.
  pose proof (activate_user_calls_length u d).
  specialize (IH (final (activate_user u d))). cbn [length]. lia.
Qed.

(** *** Rows that end at the search step, and what the log records *)

(** When the search is answered with 200 but the search step selects
    nothing (or an empty record), both operations fail the row with
    "User not found" and make no further call. *)
Theorem unmatched_user_not_found username d resp d1 users v :
  serve d (GET (users_search username)) = (Responds resp, d1) ->
  status_code resp = 200 ->
  json resp = inr users ->
  find_user users username = inr v ->
  truthy v = false ->
  (value (activate_user username d) = Result username false "User not found" /\
   calls (trace (activate_user username d)) = [GET (users_search username)]) /\
  (value (deactivate_user username d) = Result username false "User not found" /\
   calls (trace (deactivate_user username d)) = [GET (users_search username)]).
Proof.
  intros Hs Hc Hj Hf Hv. split.
  - unfold activate_user.
    rewrite try_requests, Hs. cbn [fst snd]. rewrite Hc, Z.eqb_refl. cbn [negb].
    by rewrite try_lift, Hj, try_lift, Hf, try_if, Hv.
  - unfold deactivate_user.
    rewrite try_requests, Hs. cbn [fst snd]. rewrite Hc, Z.eqb_refl. cbn [negb].
    by rewrite try_lift, Hj, try_lift, Hf, try_if, Hv.
Qed.

Lemma removal_event_no_payload t :
  forallb removal_event t = true -> logged_payloads t = [].
Proof.
  induction t as [|ev t IH]; [done|]. cbn [forallb].
  intros [Hev Ht]%andb_prop.
  destruct ev as [[u|u data|u] o|[]]; try discriminate; cbn; auto.
Qed.

Lemma logged_payloads_app t1 t2 :
  logged_payloads (t1 ++ t2) = (logged_payloads t1 ++ logged_payloads t2)%list.
Proof.
  induction t1 as [|[rq o|[]] t1 IH]; cbn [logged_payloads app]; by rewrite ?IH.
Qed.

(** The debug log is a faithful record of the updates: the payloads
    logged by an operation are exactly the bodies of the updates it
    sends, in the same order. *)
Theorem logged_payloads_are_updates username d :
  logged_payloads (trace (activate_user username d))
  = put_bodies (trace (activate_user username d)) /\
  logged_payloads (trace (deactivate_user username d))
  = put_bodies (trace (deactivate_user username d)).
Proof.
  split.
  - unfold activate_user. walk; by settle.
  - unfold deactivate_user. walk; rewrite ?team_phase; settle;
      rewrite ?trace_after; cbn [put_bodies logged_payloads app]; try done.
    rewrite put_bodies_app, logged_payloads_app,
      (removal_event_no_put _ (remove_from_teams_events _ _ _ _)),
      (removal_event_no_payload _ (remove_from_teams_events _ _ _ _)).
    by destruct (value (remove_from_teams _ _ _ _)).
Qed.

Lemma rejected_removals_app t1 t2 :
  rejected_removals (t1 ++ t2) = (rejected_removals t1 ++ rejected_removals t2)%list.
Proof.
  induction t1 as [|[[[]|?|[]] [e|r]|l] t1 IH];
    cbn [rejected_removals app]; rewrite ?IH; try done.
  by destruct (negb (status_in (status_code r) [200; 204])).
Qed.

Lemma warned_removals_app t1 t2 :
  warned_removals (t1 ++ t2) = (warned_removals t1 ++ warned_removals t2)%list.
Proof.
  induction t1 as [|[rq o|[]] t1 IH]; cbn [warned_removals app]; by rewrite ?IH.
Qed.

Lemma remove_from_teams_warnings username user_id items d :
  warned_removals (trace (remove_from_teams username user_id items d))
  = rejected_removals (trace (remove_from_teams username user_id items d)).
Proof.
  revert d. induction items as [|team rest IH]; intros d; [done|].
  rewrite remove_from_teams_cons.
  destruct (py_get team "Id" PyNone) as [e|team_id]; [done|]. cbn zeta.
  destruct (serve d (DELETE (teams_id_users_id team_id user_id))) as [[e|r] d1];
    cbn [fst snd]; [done|].
  rewrite !trace_after. cbn [app warned_removals rejected_removals].
  rewrite warned_removals_app, rejected_removals_app, IH.
  by destruct (negb (status_in (status_code r) [200; 204])).
Qed.

(** No failed removal goes unrecorded: the warnings a deactivation logs
    name exactly the teams whose removal was answered with a status other
    than 200 and 204, in order, each with the body of the answer. *)
Theorem failed_removals_are_warned username d :
  warned_removals (trace (deactivate_user username d))
  = rejected_removals (trace (deactivate_user username d)).
Proof.
  unfold deactivate_user. walk; rewrite ?team_phase; settle;
    rewrite ?trace_after; cbn [warned_removals rejected_removals app]; try done.
  rewrite warned_removals_app, rejected_removals_app, remove_from_teams_warnings.
  by destruct (value (remove_from_teams _ _ _ _)).
Qed.

End Operations.

(** ** The program on the scripted directory *)

(** The example batch: alice is not in the directory, bob is found
    inactive and his update goes through. *)
Example activation_batch :
  value (@process_csv (scripted all_good) (Some "activation")
           [PyStr "alice"; PyStr "bob"] (Session None None) false)
  = (jsonify_success
       [Result (PyStr "alice") false "User not found";
        Result (PyStr "bob") true "User activated successfully"],
     Session
       (Some [Result (PyStr "alice") false "User not found";
              Result (PyStr "bob") true "User activated successfully"])
       (Some "Activation")).
Proof. vm_compute. reflexivity. Qed.

(** C1 on a batch of three rows, the third being refused as a duplicate. *)
Lemma process_csv_one_result_per_row_witness :
  recognized (Some "activation") = true /\
  exists results,
    value (@process_csv (scripted all_good) (Some "activation")
             [PyStr "alice"; PyStr "bob"; PyStr "bob"] (Session None None) false) =
      (jsonify_success results, Session (Some results) (Some "Activation")) /\
    @each_in_turn (scripted all_good) (@lifecycle (scripted all_good) (Some "activation"))
      [PyStr "alice"; PyStr "bob"; PyStr "bob"] false =
      (results,
       trace (@process_csv (scripted all_good) (Some "activation")
                [PyStr "alice"; PyStr "bob"; PyStr "bob"] (Session None None) false),
       final (@process_csv (scripted all_good) (Some "activation")
                [PyStr "alice"; PyStr "bob"; PyStr "bob"] (Session None None) false)) /\
    r_username <$> results = [PyStr "alice"; PyStr "bob"; PyStr "bob"] /\
    length results = 3%nat.
Proof.
  split; [reflexivity|].
  apply (@process_csv_one_result_per_row (scripted all_good)).
  reflexivity.
Defined.

(** C2 on Bob, already active. *)
Lemma duplicate_state_refused_witness :
  value (@activate_user (scripted all_good) (PyStr "BOB") true) =
    Result (PyStr "BOB") false
      "Error: User is already active. Duplicate activation attempt." /\
  existsb is_put (calls (trace (@activate_user (scripted all_good) (PyStr "BOB") true)))
  = false.
Proof.
  apply (@duplicate_state_refused (scripted all_good) (PyStr "BOB") true
           (Response 200 "OK" (inr (PyList [PyDict (bob_record true)]))) true
           (PyList [PyDict (bob_record true)]) (bob_record true) true);
    vm_compute; reflexivity.
Defined.

(** Bob, already inactive, is not deactivated again. *)
Example duplicate_deactivation_refused :
  value (@deactivate_user (scripted all_good) (PyStr "bob") false) =
    Result (PyStr "bob") false
      "Error: User is already inactive. Duplicate deactivation attempt." /\
  existsb is_put (calls (trace (@deactivate_user (scripted all_good) (PyStr "bob") false)))
  = false.
Proof. split; vm_compute; reflexivity. Qed.

(** C8 on Bob, already inactive. *)
Lemma deactivate_inactive_makes_no_further_call_witness :
  value (@deactivate_user (scripted all_good) (PyStr "Bob") false) =
    Result (PyStr "Bob") false
      "Error: User is already inactive. Duplicate deactivation attempt." /\
  forallb search_or_details
    (calls (trace (@deactivate_user (scripted all_good) (PyStr "Bob") false))) = true /\
  calls (trace (@deactivate_user (scripted all_good) (PyStr "Bob") false)) =
    [GET (users_search (PyStr "Bob"))].
Proof.
  apply (@deactivate_inactive_makes_no_further_call (scripted all_good)
           (PyStr "Bob") false
           (Response 200 "OK" (inr (PyList [PyDict (bob_record false)]))) false
           (PyList [PyDict (bob_record false)]) (bob_record false));
    vm_compute; reflexivity.
Defined.

(** C9 on a search that does not list Bob's Active flag. *)
Lemma missing_active_passes_both_guards_witness :
  ((let! active := py_get (PyDict (delete "Active" (bob_record true))) "Active"
                     (PyBool false) in
    inr (truthy active))%exc = inr false /\
   (let! active := py_get (PyDict (delete "Active" (bob_record true))) "Active"
                     (PyBool true) in
    inr (negb (truthy active)))%exc = inr false) /\
  calls (trace (@activate_user (scripted partial_search) (PyStr "bob") true)) !! 1%nat =
    Some (GET (users_id (PyInt 7))) /\
  calls (trace (@deactivate_user (scripted partial_search) (PyStr "bob") true)) !! 1%nat =
    Some (GET (users_id (PyInt 7))).
Proof.
  assert (default PyNone (delete "Active" (bob_record true) !! "Id") = PyInt 7)
    as <- by (vm_compute; reflexivity).
  apply (@missing_active_passes_both_guards (scripted partial_search)
           (PyStr "bob") true
           (Response 200 "OK"
              (inr (PyList [PyDict (delete "Active" (bob_record true))]))) true
           (PyList [PyDict (delete "Active" (bob_record true))])
           (delete "Active" (bob_record true)));
    vm_compute; reflexivity.
Defined.

(** C6 on an update answered with 500. *)
Lemma rejected_update_skips_team_cleanup_witness :
  put_rejected (trace (@deactivate_user (scripted update_rejected) (PyStr "bob") true))
  = true /\
  r_success (value (@deactivate_user (scripted update_rejected) (PyStr "bob") true))
  = false /\
  existsb is_team_call
    (calls (trace (@deactivate_user (scripted update_rejected) (PyStr "bob") true)))
  = false.
Proof.
  split; [vm_compute; reflexivity|].
  apply (@rejected_update_skips_team_cleanup (scripted update_rejected)).
  vm_compute; reflexivity.
Defined.


(** A team listing answered with 200 and an empty object has no items:
    the loop does not run and the operation succeeds. *)
Example empty_object_listing_absorbed :
  listings_of_objects
    (trace (@deactivate_user (scripted empty_object_listing) (PyStr "bob") true))
  = true /\
  value (@deactivate_user (scripted empty_object_listing) (PyStr "bob") true) =
    Result (PyStr "bob") true
      "User deactivated, removed from all teams, and profile data cleared".
Proof. split; vm_compute; reflexivity. Qed.

(** A team listing answered with 200 and an array of numbers: the loop
    raises on its first item, although every call returned. *)
Example listing_of_numbers_fails :
  call_raised
    (trace (@deactivate_user (scripted listing_of_numbers) (PyStr "bob") true))
  = false /\
  value (@deactivate_user (scripted listing_of_numbers) (PyStr "bob") true) =
    Result (PyStr "bob") false "Error: 'int' object has no attribute 'get'".
Proof. split; vm_compute; reflexivity. Qed.

(** The team listing itself answers 503: the result is the same. *)
Example listing_failure_absorbed :
  value (@deactivate_user (scripted listing_rejected) (PyStr "bob") true) =
    Result (PyStr "bob") true
      "User deactivated, removed from all teams, and profile data cleared".
Proof. vm_compute. reflexivity. Qed.


(** C4, counterexample: the update sent when Bob is deactivated carries
    a Region field, which is not on the allow-list. *)
Lemma deactivation_update_carries_region :
  exists data,
    put_bodies (trace (@deactivate_user (scripted all_good) (PyStr "bob") true))
    = [data] /\
    data !! "Region" = Some (PyStr empty_str) /\
    ~ dom data ⊆ list_to_set allowed.
Proof.
  exists (clear_location
            (<["Active" := PyBool false]>
               (filter (fun kv => kv.1 ∈ allowed) (bob_record true)))).
  split; [vm_compute; reflexivity|].
  split; [by rewrite clear_location_lookup|].
  intros Hsub.
  assert ("Region" ∈ (list_to_set allowed : gset string)) as Hin.
  { apply Hsub. rewrite clear_location_dom. set_solver. }
  clear Hsub. apply elem_of_list_to_set in Hin.
  repeat (apply elem_of_cons in Hin as [Hin|Hin]; [discriminate|]).
  by apply elem_of_nil in Hin.
Qed.

(** C5, at the failing input: an unrecognized operation type with a
    batch of no rows is answered with success and recorded in the session
    as a deactivation. *)
Lemma invalid_operation_passes_empty_batch :
  @process_csv (scripted all_good) (Some "bogus") [] (Session None None) false =
    ((jsonify_success [], Session (Some []) (Some "Deactivation")), [], false).
Proof. reflexivity. Qed.

(** * Further properties *)

(** ** The sanitizer on records and on other values *)

Section SanitizerMore.
Implicit Types (d clean : gmap string pyvalue) (l : list pyvalue).

(** The sanitizer carries every allow-listed field other than Active over
    with the value the record has for it, and leaves a field the record
    lacks absent. *)
Theorem sanitize_carries_allowed_fields d active_status k :
  k ∈ allowed -> k <> "Active" ->
  exists clean, sanitize_user_data (PyDict d) active_status = inr clean /\
    clean !! k = d !! k.
Proof.
  intros Hk Hact.
  destruct (sanitize_dict d active_status) as (clean & Hs & Hlook).
  exists clean. split; [done|]. rewrite Hlook.
  by rewrite bool_decide_eq_false_2, bool_decide_eq_true_2.
Qed.

(** A field outside the allow-list has no influence on the sanitized
    payload, whatever its value. *)
Theorem sanitize_ignores_other_fields d active_status k x :
  k ∉ allowed ->
  sanitize_user_data (PyDict (<[k := x]> d)) active_status
  = sanitize_user_data (PyDict d) active_status.
Proof.
  intros Hk.
  destruct (sanitize_dict (<[k := x]> d) active_status) as (c1 & -> & H1).
  destruct (sanitize_dict d active_status) as (c2 & -> & H2).
  f_equal. apply map_eq. intros j. rewrite H1, H2.
  case_bool_decide; [done|]. case_bool_decide as Hj; [|done].
  apply lookup_insert_ne. by intros ->.
Qed.

Lemma comprehension_list l keys clean :
  comprehension (PyList l) keys clean =
    if existsb (fun k => existsb (is_str k) l) keys
    then inl "list indices must be integers or slices, not str"
    else inr clean.
Proof.
  induction keys as [|k keys IH]; [done|].
  cbn [comprehension py_contains py_getitem exc_bind existsb].
  by destruct (existsb (is_str k) l).
Qed.

Lemma comprehension_str t keys clean :
  comprehension (PyStr t) keys clean =
    if existsb (fun k => match String.index 0 k t with
                         | Some _ => true
                         | None => false
                         end) keys
    then inl "string indices must be integers, not 'str'"
    else inr clean.
Proof.
  induction keys as [|k keys IH]; [done|].
  cbn [comprehension py_contains py_getitem exc_bind existsb].
  by destruct (String.index 0 k t).
Qed.

(** Sanitizing a JSON value that is not an object copies nothing from
    it: the sanitizer either raises a [TypeError] or returns the payload
    holding the Active flag alone.  On null, a boolean or a number the
    membership test raises; on an array the subscript raises as soon as
    the array holds one of the allow-listed names as a string element, on
    a string as soon as it holds one of them as a substring; every other
    array or string, the empty ones among them, yields the flag alone. *)
Theorem sanitize_not_an_object v active_status :
  is_dict v = false ->
  sanitize_user_data v active_status =
    match v with
    | PyList l =>
        if existsb (fun k => existsb (is_str k) l) allowed
        then inl (TypeError_index v)
        else inr {[ "Active" := PyBool active_status ]}
    | PyStr t =>
        if existsb (fun k => match String.index 0 k t with
                             | Some _ => true
                             | None => false
                             end) allowed
        then inl (TypeError_index v)
        else inr {[ "Active" := PyBool active_status ]}
    | _ => inl (TypeError_not_container v)
    end.
Proof.
  intros Hv. destruct v as [| | | |t|l|m]; try done.
  - unfold sanitize_user_data. rewrite comprehension_str.
    by destruct (existsb _ allowed).
  - unfold sanitize_user_data. rewrite comprehension_list.
    by destruct (existsb _ allowed).
Qed.

End SanitizerMore.

(** ** The upload handler and the results page *)

Section Route.
Context `{Env} `{Tabular}.

Lemma process_csv_unrecognized operation_type usernames s d :
  recognized operation_type = false ->
  process_csv operation_type usernames s d =
    match usernames with
    | [] => ((jsonify_success [], Session (Some []) (Some "Deactivation")), [], d)
    | _ :: _ => ((jsonify_error "Invalid operation type" 400, s), [], d)
    end.
Proof.
  intros Hop. destruct usernames as [|u rest].
  - rewrite process_csv_no_rows. unfold recognized in Hop.
    apply orb_false_elim in Hop as [-> _]. done.
  - by apply process_csv_invalid_first_row.
Qed.

(** A refused upload is inert: whenever the handler answers with an
    error, the status is 400 or 500, no call was made to the directory,
    the directory is as it was, and the session still holds what it held
    before. *)
Theorem refused_upload_is_inert request s d :
  let '(out, t, d') := process_csv_route request s d in
  match out.1 with
  | jsonify_error _ status =>
      (status = 400 \/ status = 500) /\
      out.2 = s /\ row_events t = [] /\ d' = d
  | jsonify_success _ => True
  end.
Proof.
  unfold process_csv_route.
  destruct (files_csv_file request) as [file|]; [|cbn; auto].
  destruct (match filename file with Some _ => _ | None => _ end); [cbn; auto|].
  destruct (match filename file with Some _ => _ | None => _ end); [cbn; auto|].
  destruct (exc_bind _ _) as [e|df]; [cbn; auto|].
  destruct (df !! "username") as [usernames|]; [|cbn; auto].
  destruct (recognized (form_operation_type request)) eqn:Hop.
  - by rewrite (process_csv_recognized _ _ _ _ Hop).
  - rewrite (process_csv_unrecognized _ _ _ _ Hop).
    destruct usernames; cbn; auto.
Qed.

(** An accepted upload was read in full: whenever the handler answers
    with success, the upload decoded and parsed, the table has a username
    column, the results are one per entry of that column, in its order,
    and the session holds these results. *)
Theorem accepted_upload_results request s d results s' t d' :
  process_csv_route request s d = ((jsonify_success results, s'), t, d') ->
  exists file csv_content df usernames,
    files_csv_file request = Some file /\
    decode_utf8 (stream file) = inr csv_content /\
    read_csv csv_content = inr df /\
    df !! "username" = Some usernames /\
    r_username <$> results = usernames /\
    session_results s' = Some results.
Proof.
  unfold process_csv_route.
  destruct (files_csv_file request) as [file|]; [|discriminate].
  destruct (match filename file with Some _ => _ | None => _ end); [discriminate|].
  destruct (match filename file with Some _ => _ | None => _ end); [discriminate|].
  destruct (decode_utf8 (stream file)) as [e|csv_content] eqn:Hdecode;
    cbn [exc_bind]; [discriminate|].
  destruct (read_csv csv_content) as [e|df] eqn:Hread; [discriminate|].
  destruct (df !! "username") as [usernames|] eqn:Hcol; [|discriminate].
  intros Hrun. exists file, csv_content, df, usernames.
  do 4 (split; [done|]).
  destruct (recognized (form_operation_type request)) eqn:Hop.
  - rewrite (process_csv_recognized _ _ _ _ Hop) in Hrun.
    injection Hrun as <- <- _ _. split; [|done].
    apply each_in_turn_usernames.
  - rewrite (process_csv_unrecognized _ _ _ _ Hop) in Hrun.
    destruct usernames; [|discriminate]. by injection Hrun as <- <- _ _.
Qed.

(** The results page shows the last accepted batch: after an upload
    answered with success it shows the results of that answer, labelled
    Activation or Deactivation; after a refused upload it shows what it
    showed before. *)
Theorem results_page_after_upload request s d :
  let '(out, t, d') := process_csv_route request s d in
  match out.1 with
  | jsonify_success results =>
      results_page out.2 =
        (results,
         if op_is (form_operation_type request) "activation"
         then "Activation" else "Deactivation")
  | jsonify_error _ _ => results_page out.2 = results_page s
  end.
Proof.
  unfold process_csv_route.
  destruct (files_csv_file request) as [file|]; [|done].
  destruct (match filename file with Some _ => _ | None => _ end); [done|].
  destruct (match filename file with Some _ => _ | None => _ end); [done|].
  destruct (exc_bind _ _) as [e|df]; [done|].
  destruct (df !! "username") as [usernames|]; [|done].
  destruct (recognized (form_operation_type request)) eqn:Hop.
  - by rewrite (process_csv_recognized _ _ _ _ Hop).
  - rewrite (process_csv_unrecognized _ _ _ _ Hop).
    unfold recognized in Hop. apply orb_false_elim in Hop as [-> _].
    by destruct usernames.
Qed.

End Route.

(** ** The further properties on scripted material *)

(** A detail body that is a plain string: nothing of it reaches the
    payload. *)
Lemma sanitize_not_an_object_witness :
  sanitize_user_data (PyStr "hello") true = inr {[ "Active" := PyBool true ]}.
Proof. exact (sanitize_not_an_object (PyStr "hello") true eq_refl). Defined.

(** A string that holds an allow-listed name makes the sanitizer raise. *)
Example sanitize_string_with_field_name :
  sanitize_user_data (PyStr "my Email") true
  = inl (TypeError_index (PyStr "my Email")).
Proof. reflexivity. Qed.

(** Bob's e-mail address is carried over. *)
Lemma sanitize_carries_allowed_fields_witness :
  exists clean,
    sanitize_user_data (PyDict (bob_record true)) false = inr clean /\
    clean !! "Email" = bob_record true !! "Email".
Proof.
  apply (sanitize_carries_allowed_fields (bob_record true) false "Email").
  - by apply (bool_decide_unpack _).
  - discriminate.
Defined.

(** Moving Bob to another region does not change his payload. *)
Lemma sanitize_ignores_other_fields_witness :
  sanitize_user_data (PyDict (<["Region" := PyStr "APAC"]> (bob_record true))) true
  = sanitize_user_data (PyDict (bob_record true)) true.
Proof.
  apply (sanitize_ignores_other_fields (bob_record true) true "Region").
  by apply (bool_decide_unpack _).
Defined.

(** Bob is selected after Bobby is passed over, and before a second
    record of the same name. *)
Lemma find_user_first_match_witness :
  @find_user (scripted all_good)
    (PyList ([PyDict {["UserName" := PyStr "Bobby"]}]
             ++ PyDict (bob_record true)
             :: [PyDict {["UserName" := PyStr "BOB"]}]))
    (PyStr "bob")
  = inr (PyDict (bob_record true)).
Proof.
  apply (@find_user_first_match (scripted all_good)
           [PyDict {["UserName" := PyStr "Bobby"]}]
           [PyDict {["UserName" := PyStr "BOB"]}]
           (PyDict (bob_record true)) "Bob" "bob").
  - constructor; [|constructor]. exists "Bobby".
    split; [vm_compute; reflexivity | vm_compute; discriminate].
  - vm_compute; reflexivity.
  - vm_compute; reflexivity.
Defined.

Lemma find_user_sound_witness :
  PyDict (bob_record true) = PyNone \/
  exists l s x,
    PyList [PyDict (bob_record true)] = PyList l /\ PyStr "BOB" = PyStr s /\
    PyDict (bob_record true) ∈ l /\
    candidate_name (PyDict (bob_record true)) = Some x /\
    str_lower x = str_lower s.
Proof.
  apply (@find_user_sound (scripted all_good)
           (PyList [PyDict (bob_record true)]) (PyStr "BOB")
           (PyDict (bob_record true))).
  vm_compute; reflexivity.
Defined.

(** A blank cell, read as the float NaN, against a search that lists
    Bob. *)
Lemma non_string_username_fails_row_witness :
  (value (@activate_user loose_search (PyFloat S754_nan) tt) =
     Result (PyFloat S754_nan) false
       "Error: 'float' object has no attribute 'lower'" /\
   calls (trace (@activate_user loose_search (PyFloat S754_nan) tt)) =
     [GET (users_search (PyFloat S754_nan))]) /\
  (value (@deactivate_user loose_search (PyFloat S754_nan) tt) =
     Result (PyFloat S754_nan) false
       "Error: 'float' object has no attribute 'lower'" /\
   calls (trace (@deactivate_user loose_search (PyFloat S754_nan) tt)) =
     [GET (users_search (PyFloat S754_nan))]).
Proof.
  apply (@non_string_username_fails_row loose_search (PyFloat S754_nan) tt
           (Response 200 "OK" (inr (PyList [PyDict (bob_record true)]))) tt
           (PyDict (bob_record true)) []);
    vm_compute; reflexivity.
Defined.

(** The directory cannot be reached. *)
Lemma failed_search_ends_operation_witness :
  (value (@activate_user unreachable (PyStr "bob") tt) =
     Result (PyStr "bob") false "Error: Connection refused" /\
   calls (trace (@activate_user unreachable (PyStr "bob") tt)) =
     [GET (users_search (PyStr "bob"))] /\
   final (@activate_user unreachable (PyStr "bob") tt) = tt) /\
  (value (@deactivate_user unreachable (PyStr "bob") tt) =
     Result (PyStr "bob") false "Error: Connection refused" /\
   calls (trace (@deactivate_user unreachable (PyStr "bob") tt)) =
     [GET (users_search (PyStr "bob"))] /\
   final (@deactivate_user unreachable (PyStr "bob") tt) = tt).
Proof.
  apply (@failed_search_ends_operation unreachable (PyStr "bob") tt
           (Raises "Connection refused") tt);
    [reflexivity | exact I].
Defined.

(** Alice is not in the directory. *)
Lemma unmatched_user_not_found_witness :
  (value (@activate_user (scripted all_good) (PyStr "alice") false) =
     Result (PyStr "alice") false "User not found" /\
   calls (trace (@activate_user (scripted all_good) (PyStr "alice") false)) =
     [GET (users_search (PyStr "alice"))]) /\
  (value (@deactivate_user (scripted all_good) (PyStr "alice") false) =
     Result (PyStr "alice") false "User not found" /\
   calls (trace (@deactivate_user (scripted all_good) (PyStr "alice") false)) =
     [GET (users_search (PyStr "alice"))]).
Proof.
  apply (@unmatched_user_not_found (scripted all_good) (PyStr "alice") false
           (Response 200 "OK" (inr (PyList []))) false (PyList []) PyNone);
    vm_compute; reflexivity.
Defined.

(** Both of Bob's teams are tried although the first removal is answered
    with 500. *)
Lemma one_removal_per_team_witness :
  calls (trace (@remove_from_teams (scripted removals_rejected) (PyStr "bob") (PyInt 7)
                  [PyDict {["Id" := PyStr "t1"]}; PyDict {["Id" := PyStr "t2"]}] false))
  = [DELETE (teams_id_users_id (PyStr "t1") (PyInt 7));
     DELETE (teams_id_users_id (PyStr "t2") (PyInt 7))].
Proof.
  change [DELETE (teams_id_users_id (PyStr "t1") (PyInt 7));
          DELETE (teams_id_users_id (PyStr "t2") (PyInt 7))]
    with (removal_of (PyInt 7) <$>
            [PyDict {["Id" := PyStr "t1"]}; PyDict {["Id" := PyStr "t2"]}]).
  apply (@one_removal_per_team (scripted removals_rejected));
    vm_compute; reflexivity.
Defined.

(** Alice alone, then Bob alone, against the two of them at once. *)
Lemma batch_in_two_parts_witness :
  exists results1 results2,
    (value (@process_csv (scripted all_good) (Some "activation") [PyStr "alice"]
              (Session None None) false)).1 = jsonify_success results1 /\
    (value (@process_csv (scripted all_good) (Some "activation") [PyStr "bob"]
              (Session None None)
              (final (@process_csv (scripted all_good) (Some "activation")
                        [PyStr "alice"] (Session None None) false)))).1
      = jsonify_success results2 /\
    (value (@process_csv (scripted all_good) (Some "activation")
              ([PyStr "alice"] ++ [PyStr "bob"]) (Session None None) false)).1
      = jsonify_success (results1 ++ results2) /\
    trace (@process_csv (scripted all_good) (Some "activation")
             ([PyStr "alice"] ++ [PyStr "bob"]) (Session None None) false)
      = (trace (@process_csv (scripted all_good) (Some "activation") [PyStr "alice"]
                  (Session None None) false)
         ++ trace (@process_csv (scripted all_good) (Some "activation") [PyStr "bob"]
                     (Session None None)
                     (final (@process_csv (scripted all_good) (Some "activation")
                               [PyStr "alice"] (Session None None) false))))%list /\
    final (@process_csv (scripted all_good) (Some "activation")
             ([PyStr "alice"] ++ [PyStr "bob"]) (Session None None) false)
      = final (@process_csv (scripted all_good) (Some "activation") [PyStr "bob"]
                 (Session None None)
                 (final (@process_csv (scripted all_good) (Some "activation")
                           [PyStr "alice"] (Session None None) false))).
Proof.
  apply (@batch_in_two_parts (scripted all_good)). reflexivity.
Defined.

(** The sample upload, sent for activation. *)
Lemma accepted_upload_results_witness :
  exists file csv_content df usernames,
    files_csv_file (Form (Some "activation") (Some sample_upload)) = Some file /\
    @decode_utf8 one_column (stream file) = inr csv_content /\
    @read_csv one_column csv_content = inr df /\
    df !! "username" = Some usernames /\
    r_username <$>
      [Result (PyStr "alice") false "User not found";
       Result (PyStr "bob") true "User activated successfully"] = usernames /\
    session_results
      (@process_csv_route (scripted all_good) one_column
         (Form (Some "activation") (Some sample_upload))
         (Session None None) false).1.1.2
    = Some [Result (PyStr "alice") false "User not found";
            Result (PyStr "bob") true "User activated successfully"].
Proof.
  apply (@accepted_upload_results (scripted all_good) one_column
           (Form (Some "activation") (Some sample_upload)) (Session None None) false
           [Result (PyStr "alice") false "User not found";
            Result (PyStr "bob") true "User activated successfully"]
           _
           (@process_csv_route (scripted all_good) one_column
              (Form (Some "activation") (Some sample_upload))
              (Session None None) false).1.2
           (@process_csv_route (scripted all_good) one_column
              (Form (Some "activation") (Some sample_upload))
              (Session None None) false).2).
  vm_compute; reflexivity.
Defined.
